(** * supervisor-alert: the event-listener loop and its alert dispatcher

    A shallow embedding of [supervisor_alert.py].  The program is a
    Supervisor event listener: it announces readiness, receives one event,
    possibly launches a subprocess that delivers an alert, and acknowledges
    the event with [OK] or [FAIL].

    Python byte strings are [string]; dictionaries are [gmap string string];
    the exclusion set is a [gset string].  Effects (writes on the control
    channel, subprocess launches, exceptions) are threaded through a small
    state-and-exception monad whose state is the chronological trace of
    observable actions. *)

From stdpp Require Import base numbers strings list gmap.
From Stdlib Require Import Ascii.

Local Open Scope Z_scope.

(** ** Python string primitives *)

Module Py.

(** [str.startswith] *)
Fixpoint startswith (s p : string) {struct p} : bool :=
  match p, s with
  | EmptyString, _ => true
  | String a p', String b s' => if decide (a = b) then startswith s' p' else false
  | String _ _, EmptyString => false
  end.

(** the slice [s[n:]] *)
Fixpoint slice_from (n : nat) (s : string) {struct n} : string :=
  match n, s with
  | O, _ => s
  | S n', String _ s' => slice_from n' s'
  | S _, EmptyString => EmptyString
  end.

(** [str.lower] on a byte string: only the letters [A]..[Z] change. *)
Definition lower_char (c : ascii) : ascii :=
  let n := N_of_ascii c in
  if ((65 <=? n) && (n <=? 90))%N then ascii_of_N (n + 32) else c.

Fixpoint lower (s : string) : string :=
  match s with
  | EmptyString => EmptyString
  | String c s' => String (lower_char c) (lower s')
  end.

(** [s.split(sep)] for a one-character separator: every occurrence of the
    separator cuts, empty fields are kept, the result is never empty. *)
Fixpoint split (sep : ascii) (s : string) : list string :=
  match s with
  | EmptyString => [EmptyString]
  | String c s' =>
      if decide (c = sep) then EmptyString :: split sep s'
      else match split sep s' with
           | w :: ws => String c w :: ws
           | [] => [String c EmptyString]
           end
  end.

(** [sep.join(l)] *)
Fixpoint join (sep : string) (l : list string) : string :=
  match l with
  | [] => EmptyString
  | [w] => w
  | w :: ws => w +:+ sep +:+ join sep ws
  end.

(** [c in s] for a character *)
Fixpoint contains (c : ascii) (s : string) : bool :=
  match s with
  | EmptyString => false
  | String b s' => if decide (b = c) then true else contains c s'
  end.

(** [s.split()] with no argument cuts at runs of white space and drops
    empty fields; this is [String.words]. *)
Definition split_whitespace : string → list string := String.words.

(** Truth value of an optional string ([None] and [""] are false). *)
Definition truthy (o : option string) : bool :=
  match o with
  | Some (String _ _) => true
  | _ => false
  end.

End Py.

(** ** Exceptions, observable actions, and the monad *)

Inductive exn : Type :=
  | KeyError (key : string)
  | ValueError
  | OSError
  | CalledProcessError (returncode : Z)
  | Exception (msg : string).

(** What the control channel carries from the listener to its parent. *)
Inductive signal : Type :=
  | READY
  | RESULT_OK
  | RESULT_FAIL.

(** Observable actions, in the order in which they happen.  [Alert m] marks
    the call [alert(message=m)] in the main loop; [Exec argv] marks a
    subprocess launched by [check_call]. *)
Inductive action : Type :=
  | Out (sig : signal)
  | Alert (message : string)
  | Exec (argv : list string).

Definition trace : Type := list action.

Inductive result (A : Type) : Type :=
  | Ret (a : A)
  | Raise (e : exn).
Arguments Ret {A} a.
Arguments Raise {A} e.

Definition M (A : Type) : Type := trace → result A * trace.

Definition ret {A} (a : A) : M A := λ t, (Ret a, t).
Definition raise {A} (e : exn) : M A := λ t, (Raise e, t).
Definition bind {A B} (m : M A) (k : A → M B) : M B := λ t,
  match m t with
  | (Ret a, t') => k a t'
  | (Raise e, t') => (Raise e, t')
  end.
Definition emit (a : action) : M unit := λ t, (Ret tt, t ++ [a]).

(** [try: body / except ...: handler].  The handler returns [None] for an
    exception no clause matches.  An exception raised inside a handler is not
    offered to the other clauses of the same [try]. *)
Definition try_except {A} (body : M A) (handler : exn → option (M A)) : M A := λ t,
  match body t with
  | (Ret a, t') => (Ret a, t')
  | (Raise e, t') =>
      match handler e with
      | Some h => h t'
      | None => (Raise e, t')
      end
  end.

Declare Scope py_scope.
Delimit Scope py_scope with py.
Notation "x <- m ;; k" := (bind m (λ x, k))
  (at level 100, m at next level, right associativity) : py_scope.
Notation "m ;;; k" := (bind m (λ _, k))
  (at level 100, right associativity) : py_scope.
Local Open Scope py_scope.

(** Pure results (no trace), for functions that only compute or raise. *)
Definition lift {A} (r : result A) : M A := λ t, (r, t).

(** [d[k]] on a dictionary *)
Definition getitem (d : gmap string string) (k : string) : result string :=
  match d !! k with
  | Some v => Ret v
  | None => Raise (KeyError k)
  end.

(** ** The platform

    What the program obtains from its surroundings: the host name, the home
    directory expansion, [shlex.split], the fate of every subprocess it
    launches (which may depend on everything that happened before), and the
    machine its set-up mode works on. *)

(** The machine set-up runs on: the line typed at the prompt ([None] at end
    of input), which files can be opened for writing and written, and which
    accounts the password database knows. *)
Record machine : Type := {
  typed : option string;
  writable : string → bool;
  has_account : string → bool
}.


Inductive proc_outcome : Type :=
  | Exited (returncode : Z)     (* the program ran and exited *)
  | NotExecutable.              (* the program could not be started: OSError *)

Record platform : Type := {
  gethostname : string;
  expanduser : string → string;
  shlex_split : string → result (list string);
  spawn : trace → list string → proc_outcome;
  console : machine
}.

(** [subprocess.check_call]: returns on exit status 0, raises
    [CalledProcessError] on any other status, [OSError] when the program
    cannot be started. *)
Definition check_call (P : platform) (argv : list string) : M unit := λ t,
  let t' := t ++ [Exec argv] in
  match spawn P t argv with
  | Exited rc => if decide (rc = 0) then (Ret tt, t') else (Raise (CalledProcessError rc), t')
  | NotExecutable => (Raise OSError, t')
  end.

(** ** The alert dispatcher (lines 28, 82-101) *)

Definition telegram_conf_args : list string := ["--config"; "/etc/telegram-send.conf"].

Definition telegram (P : platform) (message : string) : M bool :=
  try_except
    (check_call P (["telegram-send"; message] ++ telegram_conf_args) ;;;
     ret true)
    (λ e, match e with
          | OSError =>
              Some (let cmd := expanduser P "~/.local/bin/telegram-send" in
                    check_call P ([cmd; message] ++ telegram_conf_args) ;;;
                    ret true)
          | CalledProcessError _ => Some (ret false)
          | _ => None
          end).

Definition send (P : platform) (command : list string) (message : string) : M bool :=
  try_except
    (check_call P (command ++ [message]) ;;;
     ret true)
    (λ e, match e with
          | CalledProcessError _ => Some (ret false)
          | _ => None
          end).

(** ** Set-up: [configure] (lines 104-144) *)

Module PyStr.

(** [str.lstrip()], [str.rstrip()] and [str.strip()] with no argument: white
    space is removed at the ends only. *)
Fixpoint lstrip (x : string) : string :=
  match x with
  | EmptyString => EmptyString
  | String c x' => if Ascii.is_space c then lstrip x' else x
  end.

Fixpoint rstrip (x : string) : string :=
  match x with
  | EmptyString => EmptyString
  | String c x' =>
      match rstrip x' with
      | EmptyString => if Ascii.is_space c then EmptyString else String c EmptyString
      | r => String c r
      end
  end.

Definition strip (x : string) : string := rstrip (lstrip x).

(** [template.format(field, ...)] for templates whose replacement fields are
    all the empty field [{}]; a doubled brace stands for one brace.  The
    result is [None] where Python raises (a brace on its own, more fields
    than arguments) and for the other kinds of field, which this program does
    not use. *)
Fixpoint format (template : string) (fields : list string) : option string :=
  match template with
  | EmptyString => Some EmptyString
  | String c rest =>
      if decide (c = "{"%char) then
        match rest with
        | String d rest' =>
            if decide (d = "}"%char) then
              match fields with
              | x :: fields' => String.app x <$> format rest' fields'
              | [] => None
              end
            else if decide (d = "{"%char) then String "{" <$> format rest' fields
            else None
        | EmptyString => None
        end
      else if decide (c = "}"%char) then
        match rest with
        | String d rest' =>
            if decide (d = "}"%char) then String "}" <$> format rest' fields
            else None
        | EmptyString => None
        end
      else String c <$> format rest fields
  end.

End PyStr.

(** The line feed. *)
Definition nl : string := String "010" EmptyString.

(** Line 106. *)
Definition conf : string := "/etc/supervisor/conf.d/supervisor_alert.conf".

(** Lines 108-115: the template of the Supervisor configuration. *)
Definition config : string :=
  "[eventlistener:supervisor_alert]" +:+ nl +:+
  "command=supervisor-alert --telegram{}" +:+ nl +:+
  "events=PROCESS_STATE_RUNNING,PROCESS_STATE_EXITED,PROCESS_STATE_FATAL" +:+ nl +:+
  "autostart=true" +:+ nl +:+
  "autorestart=true" +:+ nl +:+
  "stdout_logfile=NONE" +:+ nl +:+
  "user=supervisor_alert" +:+ nl.

(** What set-up does, in the order in which it happens. *)
Inductive setup_event : Type :=
  | Asked (prompt : string)          (* [raw_input] wrote its prompt *)
  | Printed (line : string)          (* [print] *)
  | Saved (path content : string)    (* a file was opened for writing, written, closed *)
  | Ran (argv : list string).        (* [check_call] launched a subprocess *)

(** The exceptions of set-up: those of the listener, and two more. *)
Inductive setup_exn : Type :=
  | Raised (e : exn)
  | IOError
  | EOFError.

Inductive outcome (A : Type) : Type :=
  | Done (a : A)
  | Failed (e : setup_exn).
Arguments Done {A} a.
Arguments Failed {A} e.

Definition setup_log : Type := list setup_event.

Definition Setup (A : Type) : Type := setup_log → outcome A * setup_log.

Definition setup_ret {A} (a : A) : Setup A := λ log, (Done a, log).
Definition setup_raise {A} (e : setup_exn) : Setup A := λ log, (Failed e, log).
Definition setup_bind {A B} (m : Setup A) (k : A → Setup B) : Setup B := λ log,
  match m log with
  | (Done a, log') => k a log'
  | (Failed e, log') => (Failed e, log')
  end.

(** [try: body / except ...: handler], as [try_except]. *)
Definition setup_try {A} (body : Setup A) (handler : setup_exn → option (Setup A)) : Setup A :=
  λ log,
    match body log with
    | (Done a, log') => (Done a, log')
    | (Failed e, log') =>
        match handler e with
        | Some h => h log'
        | None => (Failed e, log')
        end
    end.

Declare Scope setup_scope.
Delimit Scope setup_scope with setup.
Notation "x <- m ;; k" := (setup_bind m (λ x, k))
  (at level 100, m at next level, right associativity) : setup_scope.
Notation "m ;;; k" := (setup_bind m (λ _, k))
  (at level 100, right associativity) : setup_scope.

(** The subprocesses launched so far, as the trace [spawn] is asked with. *)
Fixpoint launched (log : setup_log) : trace :=
  match log with
  | [] => []
  | Ran argv :: log' => Exec argv :: launched log'
  | _ :: log' => launched log'
  end.

(** [raw_input(prompt)]: writes the prompt, returns the line typed without
    its line feed, raises [EOFError] at end of input. *)
Definition raw_input (K : machine) (prompt : string) : Setup string := λ log,
  match typed K with
  | Some line => (Done line, log ++ [Asked prompt])
  | None => (Failed EOFError, log ++ [Asked prompt])
  end.

(** [with open(path, "w") as f: f.write(content)]: [IOError] when the file
    cannot be opened or written (what a failed attempt leaves in the file is
    not recorded). *)
Definition write_file (K : machine) (path content : string) : Setup unit := λ log,
  if writable K path then (Done tt, log ++ [Saved path content])
  else (Failed IOError, log).

(** [pwd.getpwnam(name)]: [KeyError] when there is no such account. *)
Definition getpwnam (K : machine) (name : string) : Setup unit := λ log,
  if has_account K name then (Done tt, log)
  else (Failed (Raised (KeyError ("getpwnam(): name not found: " +:+ name))), log).

(** [print(line)] *)
Definition print_line (line : string) : Setup unit := λ log, (Done tt, log ++ [Printed line]).

(** [check_call] during set-up: the same [check_call], asked with the
    subprocesses launched so far. *)
Definition setup_check_call (P : platform) (argv : list string) : Setup unit := λ log,
  match check_call P argv (launched log) with
  | (Ret _, _) => (Done tt, log ++ [Ran argv])
  | (Raise e, _) => (Failed (Raised e), log ++ [Ran argv])
  end.

(** [template.format(field)], with [ValueError] where [PyStr.format] has no
    result. *)
Definition setup_format (template field : string) : Setup string := λ log,
  match PyStr.format template [field] with
  | Some text => (Done text, log)
  | None => (Failed (Raised ValueError), log)
  end.

Local Open Scope setup_scope.

(** Lines 104-144. *)
Definition configure (P : platform) (K : machine) : Setup unit :=
  show_hostname <- raw_input K "Prepend messages with the hostname? [y/n] " ;;
  let show_hostname := Py.lower (PyStr.strip show_hostname) in
  config <- (if decide (show_hostname = "y")
             then setup_format config " --show-hostname"
             else setup_format config EmptyString) ;;
  setup_try (write_file K conf config)
    (λ e, match e with
          | IOError =>
              Some (setup_raise (Raised (Exception
                "Can't save config, please execute as root: sudo supervisor-alert --configure")))
          | _ => None
          end) ;;;
  setup_try
    (setup_try (getpwnam K "supervisor_alert")
       (λ e, match e with
             | Raised (KeyError _) =>
                 Some (setup_check_call P
                         (Py.split_whitespace
                            "adduser supervisor_alert --system --no-create-home"))
             | _ => None
             end) ;;;
     setup_check_call P (Py.split_whitespace "supervisorctl reread") ;;;
     setup_check_call P (Py.split_whitespace "supervisorctl update"))
    (λ e, match e with
          | Raised (CalledProcessError _) =>
              Some (setup_raise (Raised (Exception
                ("Please retry as root or configure manually: " +:+
                 "https://github.com/rahiel/supervisor-alert#manual-configuration"))))
          | _ => None
          end) ;;;
  print_line "Setting up telegram-send..." ;;;
  setup_check_call P (["telegram-send"; "--configure"] ++ telegram_conf_args) ;;;
  print_line "Supervisor-alert has been set up successfully!".

Local Close Scope setup_scope.

(** The subprocesses of set-up, written out. *)
Definition adduser_argv : list string :=
  ["adduser"; "supervisor_alert"; "--system"; "--no-create-home"].
Definition reread_argv : list string := ["supervisorctl"; "reread"].
Definition update_argv : list string := ["supervisorctl"; "update"].
Definition relay_configure_argv : list string :=
  ["telegram-send"; "--configure"; "--config"; "/etc/telegram-send.conf"].

(** The argument vectors launched, in order. *)
Fixpoint runs (log : setup_log) : list (list string) :=
  match log with
  | [] => []
  | Ran argv :: log' => argv :: runs log'
  | _ :: log' => runs log'
  end.

(** The text of the two exceptions [configure] raises itself, and of its
    last line of output. *)
Definition cannot_save : string :=
  "Can't save config, please execute as root: sudo supervisor-alert --configure".
Definition please_retry : string :=
  "Please retry as root or configure manually: https://github.com/rahiel/supervisor-alert#manual-configuration".
Definition set_up_done : string := "Supervisor-alert has been set up successfully!".
Definition hostname_prompt : string := "Prepend messages with the hostname? [y/n] ".

(** The lines of the configuration file, as they are meant to be read:
    [yes] tells whether the listener is to show the host name. *)
Definition saved_lines (yes : bool) : list string :=
  ["[eventlistener:supervisor_alert]";
   "command=supervisor-alert --telegram" +:+ (if yes then " --show-hostname" else "");
   "events=PROCESS_STATE_RUNNING,PROCESS_STATE_EXITED,PROCESS_STATE_FATAL";
   "autostart=true";
   "autorestart=true";
   "stdout_logfile=NONE";
   "user=supervisor_alert"].

(** The files saved, in order. *)
Fixpoint saves (log : setup_log) : list (string * string) :=
  match log with
  | [] => []
  | Saved path content :: log' => (path, content) :: saves log'
  | _ :: log' => saves log'
  end.

(** A machine for examples. *)
Definition desk (answer : option string) (root account : bool) : machine := {|
  typed := answer;
  writable := λ _, root;
  has_account := λ _, account
|}.

(** ** The Supervisor side: [supervisor.childutils] *)

(** One notification as [listener.wait()] returns it: the header mapping and
    the payload text. *)
Definition event : Type := gmap string string * string.

(** Modelled from the spec: the [dict(...)] step of
    [supervisor.childutils.get_headers], which is not part of this
    repository.  Every element must be a [key, value] pair, else
    [ValueError]; a repeated key keeps its last value. *)
Fixpoint dict_of_pairs (l : list (list string)) (d : gmap string string)
  : result (gmap string string) :=
  match l with
  | [] => Ret d
  | [k; v] :: l' => dict_of_pairs l' (<[k:=v]> d)
  | _ :: _ => Raise ValueError
  end.

(** Modelled from the spec: [supervisor.childutils.get_headers], the parser
    of a header-style block, is not part of this repository.  A block is a
    run of white-space separated [key:value] tokens (sections 4.2 and 6);
    the library computes [dict([x.split(':') for x in line.split()])]. *)
Definition get_headers (line : string) : result (gmap string string) :=
  dict_of_pairs (Py.split ":" <$> Py.split_whitespace line) ∅.

(** Modelled from the spec: [listener.ready] of [supervisor.childutils],
    which is not part of this repository, writes the ready token
    (section 4.1, step 1); [listener.wait] calls it and then blocks for the
    next event. *)
Definition listener_ready : M unit := emit (Out READY).

(** Modelled from the spec: [listener.ok] of [supervisor.childutils], which
    is not part of this repository, writes the result token [OK]
    (section 4.1, step 5). *)
Definition listener_ok : M unit := emit (Out RESULT_OK).

(** Modelled from the spec: [listener.fail] of [supervisor.childutils],
    which is not part of this repository, writes the result token [FAIL]
    (section 4.1, step 5). *)
Definition listener_fail : M unit := emit (Out RESULT_FAIL).

(** ** [main] (lines 31-79) *)

Record args : Type := {
  args_command : option string;
  args_telegram : bool;
  args_configure : bool;
  args_show_hostname : bool;
  args_exclude : option string
}.

Definition s : string := "PROCESS_STATE_".

(** Lines 49-54: the choice of [alert]. *)
Definition select_alert (P : platform) (a : args) : result (string → M bool) :=
  if args_telegram a then Ret (telegram P)
  else if Py.truthy (args_command a) then
    match shlex_split P (default EmptyString (args_command a)) with
    | Ret command => Ret (send P command)
    | Raise e => Raise e
    end
  else Raise (Exception "No command specified.").

(** Lines 56-59: the exclusion set. *)
Definition build_excluded (a : args) : gset string :=
  if Py.truthy (args_exclude a)
  then foldl (λ excluded process, excluded ∪ {[process]}) ∅
             (Py.split "," (default EmptyString (args_exclude a)))
  else ∅.

(** Lines 70-72: the text of the alert. *)
Definition format_message (P : platform) (a : args)
    (process_name event_name : string) : string :=
  let message := process_name +:+ " has entered state " +:+ event_name in
  let message := if args_show_hostname a
                 then gethostname P +:+ ": " +:+ message else message in
  message.

(** Lines 63-79: the body of the loop, from the return of [listener.wait()]
    to the acknowledgement. *)
Definition turn (P : platform) (a : args) (alert : string → M bool)
    (excluded : gset string) (ev : event) : M unit :=
  let '(headers, payload) := ev in
  event_name <- lift (getitem headers "eventname") ;;
  success <-
    (if Py.startswith event_name s then
       let event_name := Py.lower (Py.slice_from (String.length s) event_name) in
       data <- lift (get_headers payload) ;;
       process_name <- lift (getitem data "processname") ;;
       let message := format_message P a process_name event_name in
       if decide (process_name ∉ excluded)
       then (emit (Alert message) ;;; alert message)
       else ret true
     else ret true) ;;
  if success : bool then listener_ok else listener_fail.

(** How a run over a finite input ends: an exception left the listener, or
    the listener is blocked in [listener.wait()] with no further event, or
    the run was the set-up: [configure()] returned or raised as [r] says,
    having done what [log] records. *)
Inductive ending : Type :=
  | Crashed (e : exn)
  | Blocked
  | Configured (r : outcome unit) (log : setup_log).

(** Lines 61-79: [while True]. *)
Fixpoint loop (body : event → M unit) (stdin : list event) (t : trace)
  : ending * trace :=
  match listener_ready t with
  | (Raise e, t0) => (Crashed e, t0)
  | (Ret _, t0) =>
      match stdin with
      | [] => (Blocked, t0)
      | ev :: stdin' =>
          match body ev t0 with
          | (Ret _, t1) => loop body stdin' t1
          | (Raise e, t1) => (Crashed e, t1)
          end
      end
  end.

(** The platform as it is after the trace [t]: [spawn] is asked with [t]
    in front of what happens from now on. *)
Definition resumed (P : platform) (t : trace) : platform := {|
  gethostname := gethostname P;
  expanduser := expanduser P;
  shlex_split := shlex_split P;
  spawn := λ history argv, spawn P (t ++ history) argv;
  console := console P
|}.

(** Lines 31-79.  With [--configure] the run is [configure()] (lines 42-43),
    on the platform's machine; the subprocesses it launches are added to the
    trace. *)
Definition main (P : platform) (a : args) (stdin : list event) (t : trace)
  : ending * trace :=
  if args_configure a then
    let c := configure (resumed P t) (console P) [] in
    (Configured (fst c) (snd c), t ++ launched (snd c))
  else
    match select_alert P a with
    | Raise e => (Crashed e, t)
    | Ret alert => loop (turn P a alert (build_excluded a)) stdin t
    end.

(** ** Reading a trace *)

(** The result signals (acknowledgements) written, in order. *)
Fixpoint acks (tr : trace) : list signal :=
  match tr with
  | [] => []
  | Out RESULT_OK :: tr' => RESULT_OK :: acks tr'
  | Out RESULT_FAIL :: tr' => RESULT_FAIL :: acks tr'
  | _ :: tr' => acks tr'
  end.

(** Everything written on the control channel, in order. *)
Fixpoint signals (tr : trace) : list signal :=
  match tr with
  | [] => []
  | Out sig :: tr' => sig :: signals tr'
  | _ :: tr' => signals tr'
  end.

(** The messages handed to the dispatcher, in order. *)
Fixpoint alerts (tr : trace) : list string :=
  match tr with
  | [] => []
  | Alert m :: tr' => m :: alerts tr'
  | _ :: tr' => alerts tr'
  end.

(** The subprocesses launched, in order. *)
Fixpoint execs (tr : trace) : list (list string) :=
  match tr with
  | [] => []
  | Exec argv :: tr' => argv :: execs tr'
  | _ :: tr' => execs tr'
  end.

(** The control channel of a listener that has handled the events whose
    acknowledgements are [rs] and now waits for the next one. *)
Fixpoint handshake (rs : list signal) : list signal :=
  match rs with
  | [] => [READY]
  | r :: rs' => READY :: r :: handshake rs'
  end.

(** A dispatcher is [quiet] when all it ever does to the trace is to append
    subprocess launches. *)
Definition quiet (alert : string → M bool) : Prop :=
  ∀ m t, ∃ argvs, snd (alert m t) = t ++ (Exec <$> argvs).

(** A dispatcher that, besides, launches only command lines in [Q]. *)
Definition launches_only (Q : list string → Prop) (alert : string → M bool) : Prop :=
  ∀ m t, ∃ argvs, snd (alert m t) = t ++ (Exec <$> argvs) ∧ Forall Q argvs.

(** The two command lines [telegram] can launch, written out. *)
Definition primary_argv (message : string) : list string :=
  ["telegram-send"; message; "--config"; "/etc/telegram-send.conf"].
Definition fallback_argv (P : platform) (message : string) : list string :=
  [expanduser P "~/.local/bin/telegram-send"; message;
   "--config"; "/etc/telegram-send.conf"].

(** A concrete platform and concrete events, for examples: a host where
    [telegram-send] is installed only under the home directory and exits
    with the status [rc], and where no other program exists. *)
Definition home_only (rc : Z) : platform := {|
  gethostname := "box";
  expanduser := λ path, "/home/alice" +:+ Py.slice_from 1 path;
  shlex_split := λ c, Ret (Py.split_whitespace c);
  spawn := λ _ argv,
    match argv with
    | "/home/alice/.local/bin/telegram-send" :: _ => Exited rc
    | _ => NotExecutable
    end;
  console := desk (Some "y") true false
|}.

(** A platform where every program exists and exits with the status [rc]. *)
Definition all_exit (rc : Z) : platform := {|
  gethostname := "box";
  expanduser := λ path, "/home/alice" +:+ Py.slice_from 1 path;
  shlex_split := λ c, Ret (Py.split_whitespace c);
  spawn := λ _ _, Exited rc;
  console := desk (Some "y") true false
|}.

Definition with_telegram : args := {|
  args_command := None; args_telegram := true; args_configure := false;
  args_show_hostname := false; args_exclude := None
|}.

Definition with_configure : args := {|
  args_command := Some "mail root"; args_telegram := true; args_configure := true;
  args_show_hostname := false; args_exclude := None
|}.

Definition with_command (c : string) (exclude : option string) : args := {|
  args_command := Some c; args_telegram := false; args_configure := false;
  args_show_hostname := false; args_exclude := exclude
|}.

Definition webapp_exited : event :=
  ({[ "eventname" := "PROCESS_STATE_EXITED" ]},
   "processname:webapp pid:42 from_state:RUNNING").

Definition tick : event :=
  ({[ "eventname" := "TICK_60" ]}, "when:1201063880").

Definition worker1_running : event :=
  ({[ "eventname" := "PROCESS_STATE_RUNNING" ]}, "processname:worker1").

Definition nameless_exited : event :=
  ({[ "eventname" := "PROCESS_STATE_EXITED" ]}, "pid:42 from_state:RUNNING").

(** ** Vocabulary for the statements *)

(** The event is a state transition: its [eventname] starts with [s]. *)
Definition is_transition (ev : event) : Prop :=
  ∃ name, ev.1 !! "eventname" = Some name ∧ Py.startswith name s = true.

(** The event is a state transition that decodes to the process
    [process_name] entering [new_state]. *)
Definition decodes_to (ev : event) (process_name new_state : string) : Prop :=
  ∃ name data,
    ev.1 !! "eventname" = Some name ∧ Py.startswith name s = true ∧
    new_state = Py.lower (Py.slice_from (String.length s) name) ∧
    get_headers ev.2 = Ret data ∧ data !! "processname" = Some process_name.

(** The payload does not decode: [get_headers] raises, or the mapping it
    returns has no [processname]. *)
Definition undecodable (payload : string) : Prop :=
  match get_headers payload with
  | Ret data => data !! "processname" = None
  | Raise _ => True
  end.

(** The decoded process is in the exclusion set. *)
Definition process_excluded (excluded : gset string) (ev : event) : Prop :=
  ∃ process_name new_state, decodes_to ev process_name new_state ∧ process_name ∈ excluded.

(** The dispatcher was called for this event, at trace [t], and returned [b]. *)
Definition dispatch_returned (P : platform) (a : args) (alert : string → M bool)
    (excluded : gset string) (ev : event) (t : trace) (b : bool) : Prop :=
  ∃ process_name new_state t',
    decodes_to ev process_name new_state ∧ (process_name ∉ excluded) ∧
    alert (format_message P a process_name new_state)
          (t ++ [Alert (format_message P a process_name new_state)]) = (Ret b, t').

(** The exception [e] is raised in the turn for this event, started at the
    trace [t]: by the lookup of [eventname], by the decoding of the payload
    of a state transition ([get_headers] raises, or there is no
    [processname]), or by the dispatcher when it is called. *)
Definition exception_leaves (P : platform) (a : args) (alert : string → M bool)
    (excluded : gset string) (ev : event) (t : trace) (e : exn) : Prop :=
  (ev.1 !! "eventname" = None ∧ e = KeyError "eventname")
  ∨ (is_transition ev ∧ get_headers ev.2 = Raise e)
  ∨ (is_transition ev
     ∧ (∃ data, get_headers ev.2 = Ret data ∧ data !! "processname" = None)
     ∧ e = KeyError "processname")
  ∨ (∃ process_name new_state t',
       decodes_to ev process_name new_state ∧ (process_name ∉ excluded) ∧
       alert (format_message P a process_name new_state)
             (t ++ [Alert (format_message P a process_name new_state)]) = (Raise e, t')).

(** The turn for this event completes, and the last thing it does is to
    write the result signal [sig]. *)
Definition acknowledges (P : platform) (a : args) (alert : string → M bool)
    (excluded : gset string) (ev : event) (t : trace) (sig : signal) : Prop :=
  ∃ t', turn P a alert excluded ev t = (Ret tt, t' ++ [Out sig]).

(** [a] with another [--command]. *)
Definition set_command (c : option string) (a : args) : args := {|
  args_command := c;
  args_telegram := args_telegram a;
  args_configure := args_configure a;
  args_show_hostname := args_show_hostname a;
  args_exclude := args_exclude a
|}.

(** A command line of the chat relay, at either of its two locations. *)
Definition is_relay_command (P : platform) (argv : list string) : Prop :=
  ∃ message, argv = primary_argv message ∨ argv = fallback_argv P message.

(** ** Vocabulary for whole runs *)

(** How many of the result signals are [FAIL]. *)
Fixpoint count_fail (sigs : list signal) : nat :=
  match sigs with
  | [] => O
  | RESULT_FAIL :: sigs' => S (count_fail sigs')
  | _ :: sigs' => count_fail sigs'
  end.

(** A dispatcher that, called with the message [m], appends to the trace a
    group of subprocess launches related to [m] by [R], and nothing else. *)
Definition dispatches (R : string → list (list string) → Prop)
    (alert : string → M bool) : Prop :=
  ∀ m t, ∃ argvs, snd (alert m t) = t ++ (Exec <$> argvs) ∧ R m argvs.

(** The launches of one call of [send]: the command, then the message as
    one more argument. *)
Definition send_group (command : list string) (m : string)
    (argvs : list (list string)) : Prop :=
  argvs = [command ++ [m]].

(** The launches of one call of [telegram]: the program on the search path,
    and after it, at most once, the copy under the home directory. *)
Definition telegram_group (P : platform) (m : string)
    (argvs : list (list string)) : Prop :=
  argvs = [primary_argv m] ∨ argvs = [primary_argv m; fallback_argv P m].

(** The alert [m] is owed to an event of [stdin]: a state transition that
    decodes, of a process that is not excluded. *)
Definition owed (P : platform) (a : args) (excluded : gset string)
    (stdin : list event) (m : string) : Prop :=
  ∃ ev process_name new_state,
    ev ∈ stdin ∧ decodes_to ev process_name new_state
    ∧ (process_name ∉ excluded)
    ∧ m = format_message P a process_name new_state.

(** ** Facts about the string primitives *)

Lemma string_app_cons (c : ascii) (p r : string) :
  String c p +:+ r = String c (p +:+ r).
Proof. reflexivity. Qed.

Lemma startswith_app (p r : string) : Py.startswith (p +:+ r) p = true.
Proof.
  induction p as [|c p IH]; simpl; [done|].
  by rewrite decide_True.
Qed.

Lemma slice_from_app (p r : string) : Py.slice_from (String.length p) (p +:+ r) = r.
Proof. induction p as [|c p IH]; cbn; done. Qed.

Lemma startswith_inv (x p : string) :
  Py.startswith x p = true → x = p +:+ Py.slice_from (String.length p) x.
Proof.
  revert x. induction p as [|c p IH]; intros x H; simpl in *.
  - by destruct x.
  - destruct x as [|b x]; [done|].
    case_decide; [subst b|done]. rewrite string_app_cons. f_equal. by apply IH.
Qed.

Lemma split_nonempty (sep : ascii) (x : string) : Py.split sep x ≠ [].
Proof.
  destruct x as [|c x]; simpl; [done|].
  case_decide; [done|]. by destruct (Py.split sep x).
Qed.

Lemma join_cons (sep w w' : string) (ws : list string) :
  Py.join sep (w :: w' :: ws) = w +:+ sep +:+ Py.join sep (w' :: ws).
Proof. reflexivity. Qed.

(** Joining the fields of a split gives the string back: nothing is trimmed,
    nothing is folded. *)
Lemma join_split (sep : ascii) (x : string) :
  Py.join (String sep EmptyString) (Py.split sep x) = x.
Proof.
  induction x as [|c x IH]; simpl; [done|].
  pose proof (split_nonempty sep x) as Hne.
  destruct (Py.split sep x) as [|w ws]; [done|].
  case_decide as Hc.
  - subst c. by rewrite join_cons, IH.
  - destruct ws as [|w' ws].
    + simpl in *. by subst.
    + rewrite join_cons in *. rewrite string_app_cons. by f_equal.
Qed.

(** No field of a split contains the separator. *)
Lemma split_fields_clean (sep : ascii) (x w : string) :
  w ∈ Py.split sep x → Py.contains sep w = false.
Proof.
  revert w. induction x as [|c x IH]; intros w; simpl.
  - intros ->%list_elem_of_singleton. done.
  - case_decide as Hc.
    + intros [->|Hw]%elem_of_cons; [done|]. by apply IH.
    + pose proof (split_nonempty sep x) as Hne.
      destruct (Py.split sep x) as [|w0 ws]; [done|].
      intros [->|Hw]%elem_of_cons.
      * simpl. rewrite decide_False by done. apply IH. left.
      * apply IH. by right.
Qed.

(** ** Facts about traces *)

Lemma acks_app (t1 t2 : trace) : acks (t1 ++ t2) = acks t1 ++ acks t2.
Proof.
  induction t1 as [|[[]| |] t1 IH]; simpl; rewrite ?IH; done.
Qed.

Lemma signals_app (t1 t2 : trace) : signals (t1 ++ t2) = signals t1 ++ signals t2.
Proof.
  induction t1 as [|[| |] t1 IH]; simpl; rewrite ?IH; done.
Qed.

Lemma alerts_app (t1 t2 : trace) : alerts (t1 ++ t2) = alerts t1 ++ alerts t2.
Proof.
  induction t1 as [|[| |] t1 IH]; simpl; rewrite ?IH; done.
Qed.

Lemma execs_app (t1 t2 : trace) : execs (t1 ++ t2) = execs t1 ++ execs t2.
Proof.
  induction t1 as [|[| |] t1 IH]; simpl; rewrite ?IH; done.
Qed.

Lemma acks_execs (argvs : list (list string)) : acks (Exec <$> argvs) = [].
Proof. induction argvs; simpl; done. Qed.

Lemma signals_execs (argvs : list (list string)) : signals (Exec <$> argvs) = [].
Proof. induction argvs; simpl; done. Qed.

Lemma alerts_execs (argvs : list (list string)) : alerts (Exec <$> argvs) = [].
Proof. induction argvs; simpl; done. Qed.

Lemma execs_execs (argvs : list (list string)) : execs (Exec <$> argvs) = argvs.
Proof. induction argvs; simpl; [done|by f_equal]. Qed.

(** ** The dispatcher, case by case *)

Section Dispatcher.
Context (P : platform).

Lemma check_call_run (argv : list string) (t : trace) :
  check_call P argv t =
    match spawn P t argv with
    | Exited rc =>
        if decide (rc = 0) then (Ret tt, t ++ [Exec argv])
        else (Raise (CalledProcessError rc), t ++ [Exec argv])
    | NotExecutable => (Raise OSError, t ++ [Exec argv])
    end.
Proof. reflexivity. Qed.

(** Everything [send] can do. *)
Lemma send_run (command : list string) (message : string) (t : trace) :
  send P command message t =
    match spawn P t (command ++ [message]) with
    | Exited rc => (Ret (bool_decide (rc = 0)), t ++ [Exec (command ++ [message])])
    | NotExecutable => (Raise OSError, t ++ [Exec (command ++ [message])])
    end.
Proof.
  unfold send, try_except, bind, check_call, ret.
  destruct (spawn P t (command ++ [message])) as [rc|]; [|done].
  case_decide; [by rewrite bool_decide_eq_true_2|by rewrite bool_decide_eq_false_2].
Qed.

(** Everything [telegram] can do. *)
Lemma telegram_run (message : string) (t : trace) :
  telegram P message t =
    let t1 := t ++ [Exec (primary_argv message)] in
    match spawn P t (primary_argv message) with
    | Exited rc => (Ret (bool_decide (rc = 0)), t1)
    | NotExecutable =>
        let t2 := t1 ++ [Exec (fallback_argv P message)] in
        match spawn P t1 (fallback_argv P message) with
        | Exited rc =>
            if decide (rc = 0) then (Ret true, t2)
            else (Raise (CalledProcessError rc), t2)
        | NotExecutable => (Raise OSError, t2)
        end
    end.
Proof.
  unfold telegram, try_except, bind, check_call, ret, primary_argv, fallback_argv.
  simpl.
  destruct (spawn P t _) as [rc|].
  - case_decide; [by rewrite bool_decide_eq_true_2|by rewrite bool_decide_eq_false_2].
  - destruct (spawn P _ _) as [rc|]; [|done]. by case_decide.
Qed.

Lemma send_quiet (command : list string) : quiet (send P command).
Proof.
  intros m t. rewrite send_run.
  exists [command ++ [m]]. by destruct (spawn P t _).
Qed.

Lemma telegram_quiet : quiet (telegram P).
Proof.
  intros m t. rewrite telegram_run. cbn zeta.
  destruct (spawn P t _) as [rc|].
  - by exists [primary_argv m].
  - exists [primary_argv m; fallback_argv P m].
    destruct (spawn P _ _) as [rc|]; [case_decide|]; simpl; by rewrite <- app_assoc.
Qed.

(** What [select_alert] can return. *)
Lemma select_alert_cases (a : args) (alert : string → M bool) :
  select_alert P a = Ret alert →
  alert = telegram P ∨ ∃ command, alert = send P command.
Proof.
  unfold select_alert. destruct (args_telegram a).
  - intros [= <-]. by left.
  - destruct (Py.truthy _); [|done].
    destruct (shlex_split P _) as [command|]; [|done].
    intros [= <-]. right. by exists command.
Qed.

Lemma select_alert_quiet (a : args) (alert : string → M bool) :
  select_alert P a = Ret alert → quiet alert.
Proof.
  intros [->|[command ->]]%select_alert_cases;
    [apply telegram_quiet|apply send_quiet].
Qed.

End Dispatcher.

(** ** The loop, unfolded once *)

Lemma loop_nil (body : event → M unit) (t : trace) :
  loop body [] t = (Blocked, t ++ [Out READY]).
Proof. reflexivity. Qed.

Lemma loop_cons (body : event → M unit) (ev : event) (stdin : list event) (t : trace) :
  loop body (ev :: stdin) t =
    match body ev (t ++ [Out READY]) with
    | (Ret _, t1) => loop body stdin t1
    | (Raise e, t1) => (Crashed e, t1)
    end.
Proof. reflexivity. Qed.

(** ** One turn of the loop *)

Section Turn.
Context (P : platform) (a : args) (alert : string → M bool) (excluded : gset string).

(** Everything one turn can do. *)
Lemma turn_run (headers : gmap string string) (payload : string) (t : trace) :
  turn P a alert excluded (headers, payload) t =
    match headers !! "eventname" with
    | None => (Raise (KeyError "eventname"), t)
    | Some name =>
        if Py.startswith name s then
          match get_headers payload with
          | Raise e => (Raise e, t)
          | Ret data =>
              match data !! "processname" with
              | None => (Raise (KeyError "processname"), t)
              | Some process_name =>
                  if decide (process_name ∈ excluded)
                  then (Ret tt, t ++ [Out RESULT_OK])
                  else
                    let message :=
                      format_message P a process_name
                        (Py.lower (Py.slice_from (String.length s) name)) in
                    match alert message (t ++ [Alert message]) with
                    | (Ret true, t') => (Ret tt, t' ++ [Out RESULT_OK])
                    | (Ret false, t') => (Ret tt, t' ++ [Out RESULT_FAIL])
                    | (Raise e, t') => (Raise e, t')
                    end
              end
          end
        else (Ret tt, t ++ [Out RESULT_OK])
    end.
Proof.
  unfold turn, bind, lift, getitem, ret, emit, listener_ok, listener_fail.
  destruct (headers !! "eventname") as [name|]; [|done].
  destruct (Py.startswith name s); [|done].
  destruct (get_headers payload) as [data|e]; [|done].
  destruct (data !! "processname") as [process_name|]; [|done].
  destruct (decide (process_name ∈ excluded)) as [Hin|Hout].
  - by rewrite decide_False by (intros Hn; by apply Hn).
  - rewrite decide_True by done. cbn zeta.
    destruct (alert _ _) as [[[|]|e] t']; done.
Qed.

(** C3: an event whose [eventname] does not start with [PROCESS_STATE_] is
    acknowledged with OK, and that write is all the turn does: the dispatcher
    is not called and no subprocess is launched. *)
Theorem non_transition_acknowledged_ok
    (headers : gmap string string) (payload name : string) (t : trace) :
  headers !! "eventname" = Some name →
  Py.startswith name s = false →
  turn P a alert excluded (headers, payload) t = (Ret tt, t ++ [Out RESULT_OK]).
Proof. intros Hname Hpre. by rewrite turn_run, Hname, Hpre. Qed.

(** C4: a decoded state transition of an excluded process is acknowledged
    with OK, and that write is all the turn does: the dispatcher is not
    called and no subprocess is launched. *)
Theorem excluded_process_acknowledged_ok
    (headers : gmap string string) (payload process_name new_state : string)
    (t : trace) :
  decodes_to (headers, payload) process_name new_state →
  process_name ∈ excluded →
  turn P a alert excluded (headers, payload) t = (Ret tt, t ++ [Out RESULT_OK]).
Proof.
  intros (name & data & Hname & Hpre & _ & Hdata & Hproc) Hin.
  simpl in Hname, Hdata.
  rewrite turn_run, Hname, Hpre, Hdata, Hproc. by rewrite decide_True.
Qed.

(** C5: for a decoded state transition of a process that is not excluded,
    the turn records the call of the dispatcher, calls it, and acknowledges
    according to what it returns; the message it passes is
    ["{process} has entered state {state}"], with ["{hostname}: "] in front
    when the host name flag is set, where [{state}] is what follows
    [PROCESS_STATE_] in the event name, in lower case.  The dispatcher is
    called exactly once in the turn, with that message. *)
Theorem dispatched_message_format
    (headers : gmap string string) (payload rest process_name : string)
    (data : gmap string string) (t : trace) :
  headers !! "eventname" = Some ("PROCESS_STATE_" +:+ rest) →
  get_headers payload = Ret data →
  data !! "processname" = Some process_name →
  process_name ∉ excluded →
  select_alert P a = Ret alert →
  let state := Py.lower rest in
  let message :=
    if args_show_hostname a
    then gethostname P +:+ ": " +:+ process_name +:+ " has entered state " +:+ state
    else process_name +:+ " has entered state " +:+ state in
  turn P a alert excluded (headers, payload) t =
    (emit (Alert message) ;;;
     success <- alert message ;;
     if success : bool then listener_ok else listener_fail) t
  ∧ ∃ mid, snd (turn P a alert excluded (headers, payload) t) = t ++ mid
           ∧ alerts mid = [message].
Proof.
  intros Hname Hdata Hproc Hout Hq%select_alert_quiet state message.
  assert (Hturn : turn P a alert excluded (headers, payload) t =
    match alert message (t ++ [Alert message]) with
    | (Ret true, t') => (Ret tt, t' ++ [Out RESULT_OK])
    | (Ret false, t') => (Ret tt, t' ++ [Out RESULT_FAIL])
    | (Raise e, t') => (Raise e, t')
    end).
  { rewrite turn_run, Hname.
    change "PROCESS_STATE_" with s.
    rewrite startswith_app, Hdata, Hproc, decide_False by done.
    by rewrite slice_from_app. }
  split.
  - rewrite Hturn. unfold bind, emit, listener_ok, listener_fail.
    destruct (alert message _) as [[[|]|e] t']; done.
  - destruct (Hq message (t ++ [Alert message])) as [argvs Hargvs].
    rewrite Hturn.
    destruct (alert message _) as [[[|]|e] t']; simpl in *; subst t';
      eexists; rewrite <- !app_assoc; (split; [reflexivity|]);
      rewrite ?alerts_app, alerts_execs; done.
Qed.

(** C8, as the code has it: when the payload of a state transition does not
    decode, the failure comes before any dispatch (the turn leaves the trace
    as it found it: no call of the dispatcher, no subprocess), but it is an
    exception that leaves the loop: nothing is acknowledged for that event
    and the run ends. *)
Theorem decode_failure_is_fatal
    (headers : gmap string string) (payload name : string) :
  headers !! "eventname" = Some name →
  Py.startswith name s = true →
  undecodable payload →
  ∃ e, (∀ t, turn P a alert excluded (headers, payload) t = (Raise e, t))
       ∧ ∀ stdin t, loop (turn P a alert excluded) ((headers, payload) :: stdin) t
                    = (Crashed e, t ++ [Out READY]).
Proof.
  intros Hname Hpre Hund. unfold undecodable in Hund.
  assert (∃ e, ∀ t, turn P a alert excluded (headers, payload) t = (Raise e, t))
    as [e He].
  { destruct (get_headers payload) as [data|e] eqn:Hdata.
    - exists (KeyError "processname"). intros t.
      by rewrite turn_run, Hname, Hpre, Hdata, Hund.
    - exists e. intros t. by rewrite turn_run, Hname, Hpre, Hdata. }
  exists e. split; [done|].
  intros stdin t. by rewrite loop_cons, He.
Qed.

Lemma decodes_to_inv (headers : gmap string string)
    (payload name process_name new_state : string) :
  headers !! "eventname" = Some name →
  decodes_to (headers, payload) process_name new_state →
  Py.startswith name s = true
  ∧ new_state = Py.lower (Py.slice_from (String.length s) name)
  ∧ ∃ data, get_headers payload = Ret data ∧ data !! "processname" = Some process_name.
Proof.
  intros Hname (name' & data & Hname' & Hpre & Hst & Hdata & Hproc).
  simpl in Hname', Hdata. rewrite Hname in Hname'. injection Hname' as <-.
  eauto.
Qed.

(** Use what [decodes_to] says about an event whose name is known, and close
    the goal when that contradicts the context. *)
Ltac decoded Hname :=
  repeat match goal with
         | H : decodes_to _ _ _ |- _ =>
             apply (decodes_to_inv _ _ _ _ _ Hname) in H as (? & ? & ? & ? & ?)
         end;
  repeat match goal with
         | H1 : ?e = _, H2 : ?e = _ |- _ => rewrite H1 in H2; simplify_eq
         end;
  repeat match goal with x := _ |- _ => subst x end;
  first [congruence | done].

(** The turn raises exactly the exceptions of [exception_leaves]. *)
Lemma turn_raises_iff (ev : event) (t : trace) (e : exn) :
  fst (turn P a alert excluded ev t) = Raise e
  ↔ exception_leaves P a alert excluded ev t e.
Proof.
  destruct ev as [headers payload]. unfold exception_leaves, is_transition.
  cbn [fst snd]. rewrite turn_run.
  destruct (headers !! "eventname") as [name|] eqn:Hname; cbn [fst snd].
  2:{ split.
      - intros [= <-]. by left.
      - intros [[_ ->]|[[(n & [=] & _) _]|[[(n & [=] & _) _]|(p & st & t' & Hdec & _)]]];
          [done|].
        destruct Hdec as (n & d & Hn & _). simpl in Hn. congruence. }
  destruct (Py.startswith name s) eqn:Hpre; cbn [fst snd].
  2:{ split; [done|].
      intros [[[=] _]|[[(n & [= <-] & Hn) _]|[[(n & [= <-] & Hn) _]|(p & st & t' & Hdec & _)]]];
        [congruence|congruence|decoded Hname]. }
  destruct (get_headers payload) as [data|e0] eqn:Hdata; cbn [fst snd].
  2:{ split.
      - intros [= <-]. right. left. split; [by exists name|done].
      - intros [[[=] _]|[[_ [= <-]]|[(_ & (d & [=] & _) & _)|(p & st & t' & Hdec & _)]]];
          [done|decoded Hname]. }
  destruct (data !! "processname") as [process_name|] eqn:Hproc; cbn [fst snd].
  2:{ split.
      - intros [= <-]. right. right. left. split_and!; [by exists name|by exists data|done].
      - intros [[[=] _]|[[_ [=]]|[(_ & _ & ->)|(p & st & t' & Hdec & _)]]];
          [done|decoded Hname]. }
  case_decide as Hex; cbn [fst snd].
  { split; [done|].
    intros [[[=] _]|[[_ [=]]|[(_ & (d & [= <-] & Hd) & _)|(p & st & t' & Hdec & Hnot & _)]]];
      [congruence|decoded Hname]. }
  cbn zeta. set (message := format_message _ _ _ _).
  destruct (alert message (t ++ [Alert message])) as [[b|e0] t1] eqn:Halert;
    cbn [fst snd].
  - split; [by destruct b|].
    intros [[[=] _]|[[_ [=]]|[(_ & (d & [= <-] & Hd) & _)|(p & st & t' & Hdec & _ & Hret)]]];
      [congruence|decoded Hname].
  - split.
    + intros [= <-]. right. right. right.
      eexists process_name, _, t1. split_and!; [|done|exact Halert].
      exists name, data. done.
    + intros [[[=] _]|[[_ [=]]|[(_ & (d & [= <-] & Hd) & _)|(p & st & t' & Hdec & _ & Hret)]]];
        [congruence|decoded Hname].
Qed.

(** What a turn appends, by its outcome. *)
Lemma turn_acks (ev : event) (t : trace) :
  quiet alert →
  ∃ mid, snd (turn P a alert excluded ev t) = t ++ mid ∧
    match fst (turn P a alert excluded ev t) with
    | Ret _ => ∃ sig, acks mid = [sig] ∧ last mid = Some (Out sig)
    | Raise _ => acks mid = []
    end.
Proof.
  intros Hq. destruct ev as [headers payload].
  rewrite turn_run.
  destruct (headers !! "eventname") as [name|]; [|by exists []; rewrite app_nil_r].
  destruct (Py.startswith name s);
    [|by exists [Out RESULT_OK]; split; [|exists RESULT_OK]].
  destruct (get_headers payload) as [data|e]; [|by exists []; rewrite app_nil_r].
  destruct (data !! "processname") as [process_name|];
    [|by exists []; rewrite app_nil_r].
  case_decide; [by exists [Out RESULT_OK]; split; [|exists RESULT_OK]|].
  cbn zeta. set (message := format_message _ _ _ _).
  destruct (Hq message (t ++ [Alert message])) as [argvs Hargvs].
  destruct (alert message _) as [[[|]|e] t']; simpl in *; subst t'.
  - exists ([Alert message] ++ (Exec <$> argvs) ++ [Out RESULT_OK]).
    split; [by rewrite <- !app_assoc|].
    exists RESULT_OK. split; [by rewrite !acks_app, acks_execs|].
    by rewrite app_assoc, last_snoc.
  - exists ([Alert message] ++ (Exec <$> argvs) ++ [Out RESULT_FAIL]).
    split; [by rewrite <- !app_assoc|].
    exists RESULT_FAIL. split; [by rewrite !acks_app, acks_execs|].
    by rewrite app_assoc, last_snoc.
  - exists ([Alert message] ++ (Exec <$> argvs)).
    split; [by rewrite <- !app_assoc|].
    rewrite !acks_app, acks_execs. done.
Qed.

(** C1, as the code has it.  A turn raises exactly when the lookup of
    [eventname], the decoding of the payload or the dispatcher raises, and
    it raises that exception; the exception then leaves the loop, which ends
    without a result signal for the event.  In every other case the turn
    completes and has written exactly one result signal, as its last action,
    so before the next ready signal.  A turn never writes more than one
    result signal. *)
Theorem one_result_per_completed_turn (ev : event) (t : trace) :
  select_alert P a = Ret alert →
  (∀ e, fst (turn P a alert excluded ev t) = Raise e
        ↔ exception_leaves P a alert excluded ev t e)
  ∧ ((¬ ∃ e, exception_leaves P a alert excluded ev t e) →
     fst (turn P a alert excluded ev t) = Ret tt)
  ∧ (∃ mid, snd (turn P a alert excluded ev t) = t ++ mid ∧
       match fst (turn P a alert excluded ev t) with
       | Ret _ => ∃ sig, acks mid = [sig] ∧ last mid = Some (Out sig)
       | Raise _ => acks mid = []
       end)
  ∧ (∀ e stdin,
       exception_leaves P a alert excluded ev (t ++ [Out READY]) e →
       ∃ mid, loop (turn P a alert excluded) (ev :: stdin) t
                = (Crashed e, t ++ Out READY :: mid)
              ∧ acks mid = []).
Proof.
  intros Hq%select_alert_quiet. split_and!.
  - intros e. apply turn_raises_iff.
  - intros Hno. destruct (fst (turn P a alert excluded ev t)) as [[]|e] eqn:Hfst; [done|].
    destruct Hno. exists e. by apply turn_raises_iff.
  - by apply turn_acks.
  - intros e stdin Hleaves%turn_raises_iff. rewrite loop_cons.
    destruct (turn_acks ev (t ++ [Out READY]) Hq) as (mid & Hmid & Hacks).
    destruct (turn P a alert excluded ev (t ++ [Out READY])) as [r t1].
    simpl in Hleaves, Hmid, Hacks. subst r t1.
    exists mid. by rewrite <- app_assoc.
Qed.

(** C2: for an event that carries an [eventname], the turn acknowledges OK
    exactly when the event is not a state transition, or its process is
    excluded, or the dispatcher returned success; it acknowledges FAIL
    exactly when the dispatcher was called and returned failure. *)
Theorem acknowledgement_iff (ev : event) (t : trace) :
  is_Some (ev.1 !! "eventname") →
  (acknowledges P a alert excluded ev t RESULT_OK ↔
     ¬ is_transition ev ∨ process_excluded excluded ev
     ∨ dispatch_returned P a alert excluded ev t true)
  ∧ (acknowledges P a alert excluded ev t RESULT_FAIL ↔
     dispatch_returned P a alert excluded ev t false).
Proof.
  destruct ev as [headers payload]. intros [name Hname]. simpl in Hname.
  unfold acknowledges, process_excluded, dispatch_returned.
  rewrite turn_run, Hname.
  assert (Htail : ∀ (t1 t2 : trace), t1 ++ [Out RESULT_OK] ≠ t2 ++ [Out RESULT_FAIL]).
  { intros t1 t2 [_ [=]]%app_inj_tail. }
  assert (Htrans : is_transition (headers, payload) ↔ Py.startswith name s = true).
  { split; [|by exists name].
    intros (name' & Hname' & Hpre). simpl in Hname'. congruence. }
  destruct (Py.startswith name s) eqn:Hpre.
  2:{ split; split.
      - intros _. left. rewrite Htrans. done.
      - by exists t.
      - intros [t' [= Ht']]. by apply Htail in Ht'.
      - intros (p & st & t' & Hdec & _). decoded Hname. }
  assert (Hyes : ¬ ¬ is_transition (headers, payload)).
  { intros Hnt. by apply Hnt, Htrans. }
  destruct (get_headers payload) as [data|e] eqn:Hdata.
  2:{ split; split; try (intros [t' [=]]; fail).
      - intros [Hnt|[(p & st & Hdec & _)|(p & st & t' & Hdec & _)]];
          [done|decoded Hname..].
      - intros (p & st & t' & Hdec & _). decoded Hname. }
  destruct (data !! "processname") as [process_name|] eqn:Hproc.
  2:{ split; split; try (intros [t' [=]]; fail).
      - intros [Hnt|[(p & st & Hdec & _)|(p & st & t' & Hdec & _)]];
          [done|decoded Hname..].
      - intros (p & st & t' & Hdec & _). decoded Hname. }
  assert (Hdec : decodes_to (headers, payload) process_name
                   (Py.lower (Py.slice_from (String.length s) name))).
  { exists name, data. done. }
  case_decide as Hex.
  { split; split.
    - intros _. right. left. eauto.
    - by exists t.
    - intros [t' [= Ht']]. by apply Htail in Ht'.
    - intros (p & st & t' & Hdec' & Hnot & _). decoded Hname. }
  cbn zeta. set (message := format_message _ _ _ _).
  destruct (alert message (t ++ [Alert message])) as [[[|]|e] t1] eqn:Halert.
  - split; split.
    + intros _. right. right. eexists process_name, _, t1. done.
    + by exists t1.
    + intros [t' [= Ht']]. by apply Htail in Ht'.
    + intros (p & st & t' & Hdec' & _ & Hret). decoded Hname.
  - split; split.
    + intros [t' [= Ht']]. symmetry in Ht'. by apply Htail in Ht'.
    + intros [Hnt|[(p & st & Hdec' & Hin)|(p & st & t' & Hdec' & _ & Hret)]];
        [done|decoded Hname..].
    + intros _. eexists process_name, _, t1. done.
    + by exists t1.
  - split; split; try (intros [t' [=]]; fail).
    + intros [Hnt|[(p & st & Hdec' & Hin)|(p & st & t' & Hdec' & _ & Hret)]];
        [done|decoded Hname..].
    + intros (p & st & t' & Hdec' & _ & Hret). decoded Hname.
Qed.

End Turn.

(** ** The whole loop *)

Section Loop.
Context (P : platform) (a : args) (alert : string → M bool) (excluded : gset string).
Context (Q : list string → Prop) (Hlaunch : launches_only Q alert).

(** What one turn adds to the trace. *)
Lemma turn_shape (ev : event) (t : trace) :
  ∃ mid, snd (turn P a alert excluded ev t) = t ++ mid
    ∧ Forall Q (execs mid)
    ∧ match fst (turn P a alert excluded ev t) with
      | Ret _ => ∃ sig, signals mid = [sig] ∧ acks mid = [sig]
      | Raise _ => signals mid = [] ∧ acks mid = []
      end.
Proof.
  destruct ev as [headers payload]. rewrite turn_run.
  destruct (headers !! "eventname") as [name|]; [|by exists []; rewrite app_nil_r].
  destruct (Py.startswith name s);
    [|by exists [Out RESULT_OK]; split_and!; [| |exists RESULT_OK]].
  destruct (get_headers payload) as [data|e]; [|by exists []; rewrite app_nil_r].
  destruct (data !! "processname") as [process_name|];
    [|by exists []; rewrite app_nil_r].
  case_decide; [by exists [Out RESULT_OK]; split_and!; [| |exists RESULT_OK]|].
  cbn zeta. set (message := format_message _ _ _ _).
  destruct (Hlaunch message (t ++ [Alert message])) as (argvs & Hargvs & HQ).
  destruct (alert message _) as [[[|]|e] t']; simpl in *; subst t'.
  - exists ([Alert message] ++ (Exec <$> argvs) ++ [Out RESULT_OK]).
    rewrite !execs_app, !signals_app, !acks_app, execs_execs, signals_execs, acks_execs.
    simpl. rewrite app_nil_r, <- !app_assoc. split_and!; [done..|by exists RESULT_OK].
  - exists ([Alert message] ++ (Exec <$> argvs) ++ [Out RESULT_FAIL]).
    rewrite !execs_app, !signals_app, !acks_app, execs_execs, signals_execs, acks_execs.
    simpl. rewrite app_nil_r, <- !app_assoc. split_and!; [done..|by exists RESULT_FAIL].
  - exists ([Alert message] ++ (Exec <$> argvs)).
    rewrite !execs_app, !signals_app, !acks_app, execs_execs, signals_execs, acks_execs.
    simpl. rewrite <- !app_assoc. done.
Qed.

(** The handshake (liveness): whatever the input, the control channel
    carries a ready signal, then for each handled event its one result
    signal followed by the next ready signal; a run that is still waiting has
    acknowledged every event, a run that crashed has acknowledged fewer. *)
Lemma loop_handshake (stdin : list event) (t : trace) :
  ∃ mid, snd (loop (turn P a alert excluded) stdin t) = t ++ mid
    ∧ Forall Q (execs mid)
    ∧ signals mid = handshake (acks mid)
    ∧ match fst (loop (turn P a alert excluded) stdin t) with
      | Blocked => length (acks mid) = length stdin
      | Crashed _ => (length (acks mid) < length stdin)%nat
      | Configured _ _ => False
      end.
Proof.
  revert t. induction stdin as [|ev stdin IH]; intros t.
  { rewrite loop_nil. by exists [Out READY]. }
  rewrite loop_cons.
  destruct (turn_shape ev (t ++ [Out READY])) as (mid1 & Ht1 & HQ1 & Hsig1).
  destruct (turn P a alert excluded ev (t ++ [Out READY])) as [[[]|e] t1];
    simpl in Ht1, Hsig1; subst t1.
  - destruct Hsig1 as (sig & Hs1 & Ha1).
    destruct (IH ((t ++ [Out READY]) ++ mid1)) as (mid2 & Ht2 & HQ2 & Hs2 & Hend).
    exists ([Out READY] ++ mid1 ++ mid2).
    rewrite Ht2, !execs_app, !signals_app, !acks_app, Hs1, Ha1, Hs2.
    simpl. split_and!.
    + by rewrite <- !app_assoc.
    + by apply Forall_app.
    + done.
    + destruct (fst (loop _ _ _)); simpl; [lia|lia|done].
  - destruct Hsig1 as [Hs1 Ha1].
    exists ([Out READY] ++ mid1).
    rewrite !execs_app, !signals_app, !acks_app, Hs1, Ha1. simpl.
    split_and!; [by rewrite <- !app_assoc|done|done|lia].
Qed.

End Loop.

Lemma telegram_launches_relay (P : platform) :
  launches_only (is_relay_command P) (telegram P).
Proof.
  intros m t. rewrite telegram_run. cbn zeta.
  assert (is_relay_command P (primary_argv m)) by (exists m; by left).
  assert (is_relay_command P (fallback_argv P m)) by (exists m; by right).
  destruct (spawn P t _) as [rc|].
  - exists [primary_argv m]. split; [done|]. by repeat constructor.
  - exists [primary_argv m; fallback_argv P m]. split; [|by repeat constructor].
    destruct (spawn P _ _) as [rc|]; [case_decide|]; simpl; by rewrite <- app_assoc.
Qed.

Lemma quiet_launches (alert : string → M bool) :
  quiet alert → launches_only (λ _, True) alert.
Proof.
  intros Hq m t. destruct (Hq m t) as [argvs Hargvs].
  exists argvs. split; [done|]. by apply Forall_forall.
Qed.

(** ** The dispatcher boundary *)

(** The one path on which [telegram] lets [CalledProcessError] through: the
    fallback runs inside the [except OSError] clause, where the clause
    [except CalledProcessError] of the same [try] no longer applies. *)
Lemma telegram_fallback_nonzero (P : platform) (message : string) (t : trace) (rc : Z) :
  spawn P t (primary_argv message) = NotExecutable →
  spawn P (t ++ [Exec (primary_argv message)]) (fallback_argv P message) = Exited rc →
  rc ≠ 0 →
  telegram P message t =
    (Raise (CalledProcessError rc),
     t ++ [Exec (primary_argv message); Exec (fallback_argv P message)]).
Proof.
  intros H1 H2 Hrc. rewrite telegram_run. cbn zeta. rewrite H1, H2.
  by rewrite decide_False, <- app_assoc.
Qed.

(** C6, as the code has it: in either variant, when the program launched
    first can be started, the dispatcher returns a boolean ([true] exactly
    for exit status 0).  When it cannot be started, the external-command
    variant lets [OSError] through; the chat-relay variant makes exactly one
    further attempt, at the path under the home directory, returns [true]
    when that attempt exits with status 0 and lets [OSError] through when it
    cannot be started either. *)
Theorem dispatcher_boundary (P : platform) (command : list string)
    (message : string) (t : trace) :
  match spawn P t (command ++ [message]) with
  | Exited rc =>
      send P command message t =
        (Ret (bool_decide (rc = 0)), t ++ [Exec (command ++ [message])])
  | NotExecutable =>
      send P command message t =
        (Raise OSError, t ++ [Exec (command ++ [message])])
  end
  ∧ match spawn P t (primary_argv message) with
    | Exited rc =>
        telegram P message t =
          (Ret (bool_decide (rc = 0)), t ++ [Exec (primary_argv message)])
    | NotExecutable =>
        ∃ r, telegram P message t =
               (r, t ++ [Exec (primary_argv message); Exec (fallback_argv P message)])
             ∧ match spawn P (t ++ [Exec (primary_argv message)])
                             (fallback_argv P message) with
               | Exited 0 => r = Ret true
               | Exited _ => True
               | NotExecutable => r = Raise OSError
               end
    end.
Proof.
  split.
  - rewrite send_run. by destruct (spawn P t _).
  - rewrite telegram_run. cbn zeta.
    destruct (spawn P t _) as [rc|]; [done|].
    destruct (spawn P _ _) as [[| |]|]; eexists;
      (split; [by rewrite <- app_assoc|done]).
Qed.

(** C7, where the code departs from it: [telegram-send] is missing from the
    search path, the copy under the home directory is found and exits with
    status 1.  [telegram] does not return [False]: [CalledProcessError]
    leaves it, and the listener ends without acknowledging the event. *)
Theorem fallback_nonzero_exit_escapes :
  telegram (home_only 1) "webapp has entered state exited" [] =
    (Raise (CalledProcessError 1),
     [Exec (primary_argv "webapp has entered state exited");
      Exec (fallback_argv (home_only 1) "webapp has entered state exited")])
  ∧ main (home_only 1) with_telegram [webapp_exited] [] =
    (Crashed (CalledProcessError 1),
     [Out READY;
      Alert "webapp has entered state exited";
      Exec (primary_argv "webapp has entered state exited");
      Exec (fallback_argv (home_only 1) "webapp has entered state exited")]).
Proof. split; vm_compute; reflexivity. Qed.

(** ** Start-up *)

Lemma main_run (P : platform) (a : args) (alert : string → M bool)
    (stdin : list event) (t : trace) :
  args_configure a = false →
  select_alert P a = Ret alert →
  main P a stdin t = loop (turn P a alert (build_excluded a)) stdin t.
Proof. intros Hc Hsel. unfold main. by rewrite Hc, Hsel. Qed.

(** C9: outside set-up mode, with [--telegram] the run is the loop with
    [telegram] as its dispatcher, whatever [--command] says: the run is the
    same for every value of [--command], and every subprocess it launches is
    a chat-relay command line; with neither [--telegram] nor [--command] the
    run ends with the exception [No command specified.] before anything is
    written on the control channel. *)
Theorem backend_precedence (P : platform) (a : args) (stdin : list event) (t : trace) :
  args_configure a = false →
  (args_telegram a = true →
     main P a stdin t = loop (turn P a (telegram P) (build_excluded a)) stdin t
     ∧ (∀ c, main P (set_command c a) stdin t
             = loop (turn P a (telegram P) (build_excluded a)) stdin t)
     ∧ select_alert P a = Ret (telegram P)
     ∧ (∀ c, main P (set_command c a) stdin t = main P a stdin t)
     ∧ ∃ mid, snd (main P a stdin t) = t ++ mid
              ∧ Forall (is_relay_command P) (execs mid))
  ∧ (args_telegram a = false → args_command a = None →
     main P a stdin t = (Crashed (Exception "No command specified."), t)).
Proof.
  intros Hconf. split.
  - intros Htg.
    assert (Hsel : ∀ c, select_alert P (set_command c a) = Ret (telegram P)).
    { intros c. unfold select_alert. simpl. by rewrite Htg. }
    assert (Hsel' : select_alert P a = Ret (telegram P)).
    { unfold select_alert. by rewrite Htg. }
    assert (Hmain : main P a stdin t
                    = loop (turn P a (telegram P) (build_excluded a)) stdin t).
    { apply main_run; done. }
    assert (Hmain' : ∀ c, main P (set_command c a) stdin t
                          = loop (turn P a (telegram P) (build_excluded a)) stdin t).
    { intros c. by rewrite (main_run P (set_command c a) (telegram P) stdin t Hconf (Hsel c)). }
    split_and!; [done|done|done| |].
    + intros c. by rewrite Hmain', Hmain.
    + rewrite Hmain.
      destruct (loop_handshake P a (telegram P) (build_excluded a) _
                  (telegram_launches_relay P) stdin t) as (mid & Hmid & HQ & _).
      by exists mid.
  - intros Htg Hcmd. unfold main, select_alert. by rewrite Hconf, Htg, Hcmd.
Qed.

(** ** The exclusion set *)

Lemma elem_of_foldl_add (l : list string) (acc : gset string) (w : string) :
  w ∈ foldl (λ excluded process, excluded ∪ {[process]}) acc l ↔ w ∈ acc ∨ w ∈ l.
Proof.
  revert acc. induction l as [|p l IH]; intros acc; simpl.
  - rewrite elem_of_nil. tauto.
  - rewrite IH, elem_of_union, elem_of_singleton, elem_of_cons. tauto.
Qed.

Lemma build_excluded_tokens (a : args) (x : string) (w : string) :
  args_exclude a = Some x → x ≠ EmptyString →
  w ∈ build_excluded a ↔ w ∈ Py.split "," x.
Proof.
  intros Hx Hne. unfold build_excluded. rewrite Hx.
  destruct x as [|c x]; [done|]. cbn [Py.truthy default].
  rewrite elem_of_foldl_add, elem_of_empty. tauto.
Qed.

(** When [--exclude] is absent or empty nothing is excluded. *)
Lemma build_excluded_none (a : args) :
  Py.truthy (args_exclude a) = false → build_excluded a = ∅.
Proof. intros H. unfold build_excluded. by rewrite H. Qed.

(** C10: for a non-empty [--exclude] argument [x], the exclusion set is the
    set of the fields of [x] between commas, taken as they are (joined with
    commas they give [x] back, and none contains a comma); a decoded process
    whose name is one of the fields is acknowledged without any dispatch,
    and one whose name is not is dispatched. *)
Theorem exclusion_is_exact_token_match (P : platform) (a : args)
    (alert : string → M bool) (x : string) (headers : gmap string string)
    (payload process_name new_state : string) (t : trace) :
  args_exclude a = Some x → x ≠ EmptyString →
  decodes_to (headers, payload) process_name new_state →
  Py.join "," (Py.split "," x) = x
  ∧ (∀ w, w ∈ Py.split "," x → Py.contains "," w = false)
  ∧ (∀ w, w ∈ build_excluded a ↔ w ∈ Py.split "," x)
  ∧ (process_name ∈ Py.split "," x →
     turn P a alert (build_excluded a) (headers, payload) t
       = (Ret tt, t ++ [Out RESULT_OK]))
  ∧ (process_name ∉ Py.split "," x →
     ∃ r t', alert (format_message P a process_name new_state)
                   (t ++ [Alert (format_message P a process_name new_state)]) = (r, t')
             ∧ turn P a alert (build_excluded a) (headers, payload) t =
                 match r with
                 | Ret true => (Ret tt, t' ++ [Out RESULT_OK])
                 | Ret false => (Ret tt, t' ++ [Out RESULT_FAIL])
                 | Raise e => (Raise e, t')
                 end).
Proof.
  intros Hx Hne (name & data & Hname & Hpre & -> & Hdata & Hproc).
  simpl in Hname, Hdata.
  split_and!.
  - apply join_split.
  - apply split_fields_clean.
  - intros w. by apply build_excluded_tokens.
  - intros Hin%(build_excluded_tokens a x _ Hx Hne).
    rewrite turn_run, Hname, Hpre, Hdata, Hproc. by rewrite decide_True.
  - intros Hout. rewrite <- (build_excluded_tokens a x _ Hx Hne) in Hout.
    rewrite turn_run, Hname, Hpre, Hdata, Hproc, decide_False by done.
    cbn zeta. destruct (alert _ _) as [r t'] eqn:Halert.
    exists r, t'. split; [done|]. by destruct r as [[|]|e].
Qed.

(** The handshake of a whole run of [main]. *)
Lemma main_handshake (P : platform) (a : args) (alert : string → M bool)
    (stdin : list event) (t : trace) :
  args_configure a = false →
  select_alert P a = Ret alert →
  ∃ mid, snd (main P a stdin t) = t ++ mid
    ∧ signals mid = handshake (acks mid)
    ∧ match fst (main P a stdin t) with
      | Blocked => length (acks mid) = length stdin
      | Crashed _ => (length (acks mid) < length stdin)%nat
      | Configured _ _ => False
      end.
Proof.
  intros Hconf Hsel. rewrite (main_run _ _ _ _ _ Hconf Hsel).
  destruct (loop_handshake P a alert (build_excluded a) _
              (quiet_launches _ (select_alert_quiet _ _ _ Hsel)) stdin t)
    as (mid & Hmid & _ & Hsig & Hend).
  by exists mid.
Qed.

(** ** Worked runs *)

(** The end-to-end scenario: one [PROCESS_STATE_EXITED] event for [webapp],
    no exclusions, host name flag off. *)
Example end_to_end_success :
  main (all_exit 0) (with_command "mail root" None) [webapp_exited] [] =
    (Blocked,
     [Out READY;
      Alert "webapp has entered state exited";
      Exec ["mail"; "root"; "webapp has entered state exited"];
      Out RESULT_OK;
      Out READY]).
Proof. vm_compute. reflexivity. Qed.

Example end_to_end_failure :
  main (all_exit 1) (with_command "mail root" None) [webapp_exited] [] =
    (Blocked,
     [Out READY;
      Alert "webapp has entered state exited";
      Exec ["mail"; "root"; "webapp has entered state exited"];
      Out RESULT_FAIL;
      Out READY]).
Proof. vm_compute. reflexivity. Qed.

(** The chat relay found only under the home directory: one fallback. *)
Example fallback_success :
  main (home_only 0) with_telegram [tick; webapp_exited] [] =
    (Blocked,
     [Out READY;
      Out RESULT_OK;
      Out READY;
      Alert "webapp has entered state exited";
      Exec ["telegram-send"; "webapp has entered state exited";
            "--config"; "/etc/telegram-send.conf"];
      Exec ["/home/alice/.local/bin/telegram-send";
            "webapp has entered state exited";
            "--config"; "/etc/telegram-send.conf"];
      Out RESULT_OK;
      Out READY]).
Proof. vm_compute. reflexivity. Qed.

(** Set-up mode: the input events are not read, no backend is selected;
    the run is [configure()]. *)
Example set_up_mode :
  main (all_exit 0) with_configure [webapp_exited] [] =
    (Configured (Done tt)
       [Asked hostname_prompt;
        Saved conf (Py.join nl (saved_lines true ++ [EmptyString]));
        Ran adduser_argv; Ran reread_argv; Ran update_argv;
        Printed "Setting up telegram-send...";
        Ran relay_configure_argv;
        Printed set_up_done],
     [Exec adduser_argv; Exec reread_argv; Exec update_argv;
      Exec relay_configure_argv]).
Proof. vm_compute. reflexivity. Qed.

Example get_headers_payload :
  get_headers "processname:webapp pid:42 from_state:RUNNING" =
    Ret (<["from_state":="RUNNING"]> (<["pid":="42"]> {["processname":="webapp"]})).
Proof. vm_compute. reflexivity. Qed.

Example get_headers_malformed : get_headers "processname webapp" = Raise ValueError.
Proof. vm_compute. reflexivity. Qed.

Example split_keeps_fields : Py.split "," "a,,b ," = ["a"; ""; "b "; ""].
Proof. reflexivity. Qed.

(** ** The statements at concrete inputs *)

Lemma one_result_per_completed_turn_witness :
  select_alert (all_exit 0) with_telegram = Ret (telegram (all_exit 0))
  ∧ (∀ e, fst (turn (all_exit 0) with_telegram (telegram (all_exit 0)) ∅
                 webapp_exited []) = Raise e
          ↔ exception_leaves (all_exit 0) with_telegram (telegram (all_exit 0)) ∅
              webapp_exited [] e)
  ∧ ((¬ ∃ e, exception_leaves (all_exit 0) with_telegram (telegram (all_exit 0)) ∅
               webapp_exited [] e) →
     fst (turn (all_exit 0) with_telegram (telegram (all_exit 0)) ∅
            webapp_exited []) = Ret tt)
  ∧ (∃ mid,
       snd (turn (all_exit 0) with_telegram (telegram (all_exit 0)) ∅ webapp_exited [])
         = [] ++ mid
       ∧ match fst (turn (all_exit 0) with_telegram (telegram (all_exit 0)) ∅
                      webapp_exited []) with
         | Ret _ => ∃ sig, acks mid = [sig] ∧ last mid = Some (Out sig)
         | Raise _ => acks mid = []
         end)
  ∧ (∀ e stdin,
       exception_leaves (all_exit 0) with_telegram (telegram (all_exit 0)) ∅
         webapp_exited ([] ++ [Out READY]) e →
       ∃ mid, loop (turn (all_exit 0) with_telegram (telegram (all_exit 0)) ∅)
                (webapp_exited :: stdin) []
                = (Crashed e, [] ++ Out READY :: mid)
              ∧ acks mid = []).
Proof.
  split; [reflexivity|].
  exact (one_result_per_completed_turn (all_exit 0) with_telegram
           (telegram (all_exit 0)) ∅ webapp_exited [] eq_refl).
Defined.

Lemma acknowledgement_iff_witness :
  is_Some (webapp_exited.1 !! "eventname")
  ∧ (acknowledges (all_exit 1) with_telegram (telegram (all_exit 1)) ∅
       webapp_exited [] RESULT_OK
     ↔ ¬ is_transition webapp_exited ∨ process_excluded ∅ webapp_exited
       ∨ dispatch_returned (all_exit 1) with_telegram (telegram (all_exit 1)) ∅
           webapp_exited [] true)
  ∧ (acknowledges (all_exit 1) with_telegram (telegram (all_exit 1)) ∅
       webapp_exited [] RESULT_FAIL
     ↔ dispatch_returned (all_exit 1) with_telegram (telegram (all_exit 1)) ∅
         webapp_exited [] false).
Proof.
  assert (Hsome : is_Some (webapp_exited.1 !! "eventname")).
  { exists "PROCESS_STATE_EXITED". vm_compute. reflexivity. }
  split; [exact Hsome|].
  exact (acknowledgement_iff (all_exit 1) with_telegram
           (telegram (all_exit 1)) ∅ webapp_exited [] Hsome).
Defined.

Lemma non_transition_acknowledged_ok_witness :
  tick.1 !! "eventname" = Some "TICK_60"
  ∧ Py.startswith "TICK_60" s = false
  ∧ turn (all_exit 1) with_telegram (telegram (all_exit 1)) ∅ tick []
    = (Ret tt, [] ++ [Out RESULT_OK]).
Proof.
  assert (H1 : tick.1 !! "eventname" = Some "TICK_60") by (vm_compute; reflexivity).
  assert (H2 : Py.startswith "TICK_60" s = false) by reflexivity.
  split_and!; [exact H1|exact H2|].
  exact (non_transition_acknowledged_ok (all_exit 1) with_telegram
           (telegram (all_exit 1)) ∅ tick.1 tick.2 "TICK_60" [] H1 H2).
Defined.

Lemma excluded_process_acknowledged_ok_witness :
  decodes_to webapp_exited "webapp" "exited"
  ∧ "webapp" ∈ build_excluded (with_command "mail root" (Some "db,webapp"))
  ∧ turn (all_exit 1) (with_command "mail root" (Some "db,webapp"))
         (send (all_exit 1) ["mail"; "root"])
         (build_excluded (with_command "mail root" (Some "db,webapp")))
         webapp_exited []
    = (Ret tt, [] ++ [Out RESULT_OK]).
Proof.
  assert (H1 : decodes_to webapp_exited "webapp" "exited").
  { eexists "PROCESS_STATE_EXITED", _.
    split_and!; [vm_compute; reflexivity|reflexivity|reflexivity
                |vm_compute; reflexivity|vm_compute; reflexivity]. }
  assert (H2 : "webapp" ∈ build_excluded (with_command "mail root" (Some "db,webapp"))).
  { refine (bool_decide_unpack _ _). vm_compute. exact I. }
  split_and!; [exact H1|exact H2|].
  exact (excluded_process_acknowledged_ok (all_exit 1) _ _ _
           webapp_exited.1 webapp_exited.2 "webapp" "exited" [] H1 H2).
Defined.

Lemma dispatched_message_format_witness :
  worker1_running.1 !! "eventname" = Some ("PROCESS_STATE_" +:+ "RUNNING")
  ∧ get_headers worker1_running.2 = Ret {[ "processname" := "worker1" ]}
  ∧ ({[ "processname" := "worker1" ]} : gmap string string) !! "processname"
    = Some "worker1"
  ∧ ("worker1" ∉ (∅ : gset string))
  ∧ select_alert (all_exit 0) with_telegram = Ret (telegram (all_exit 0))
  ∧ turn (all_exit 0) with_telegram (telegram (all_exit 0)) ∅ worker1_running []
    = (emit (Alert "worker1 has entered state running") ;;;
       success <- telegram (all_exit 0) "worker1 has entered state running" ;;
       if success : bool then listener_ok else listener_fail) []
  ∧ ∃ mid,
      snd (turn (all_exit 0) with_telegram (telegram (all_exit 0)) ∅
             worker1_running []) = [] ++ mid
      ∧ alerts mid = ["worker1 has entered state running"].
Proof.
  assert (H1 : worker1_running.1 !! "eventname"
               = Some ("PROCESS_STATE_" +:+ "RUNNING")) by (vm_compute; reflexivity).
  assert (H2 : get_headers worker1_running.2 = Ret {[ "processname" := "worker1" ]})
    by (vm_compute; reflexivity).
  assert (H3 : ({[ "processname" := "worker1" ]} : gmap string string)
               !! "processname" = Some "worker1") by (vm_compute; reflexivity).
  assert (H4 : "worker1" ∉ (∅ : gset string)) by apply not_elem_of_empty.
  assert (H5 : select_alert (all_exit 0) with_telegram = Ret (telegram (all_exit 0)))
    by reflexivity.
  split_and!; [exact H1|exact H2|exact H3|exact H4|exact H5|..];
    apply (dispatched_message_format (all_exit 0) with_telegram
             (telegram (all_exit 0)) ∅ worker1_running.1 worker1_running.2
             "RUNNING" "worker1" {[ "processname" := "worker1" ]} []
             H1 H2 H3 H4 H5).
Defined.

Lemma decode_failure_is_fatal_witness :
  nameless_exited.1 !! "eventname" = Some "PROCESS_STATE_EXITED"
  ∧ Py.startswith "PROCESS_STATE_EXITED" s = true
  ∧ undecodable nameless_exited.2
  ∧ ∃ e, (∀ t, turn (all_exit 0) with_telegram (telegram (all_exit 0)) ∅
                 nameless_exited t = (Raise e, t))
         ∧ ∀ stdin t,
             loop (turn (all_exit 0) with_telegram (telegram (all_exit 0)) ∅)
                  (nameless_exited :: stdin) t
             = (Crashed e, t ++ [Out READY]).
Proof.
  assert (H1 : nameless_exited.1 !! "eventname" = Some "PROCESS_STATE_EXITED")
    by (vm_compute; reflexivity).
  assert (H2 : Py.startswith "PROCESS_STATE_EXITED" s = true) by reflexivity.
  assert (H3 : undecodable nameless_exited.2) by (vm_compute; reflexivity).
  split_and!; [exact H1|exact H2|exact H3|].
  exact (decode_failure_is_fatal (all_exit 0) with_telegram
           (telegram (all_exit 0)) ∅ nameless_exited.1 nameless_exited.2
           "PROCESS_STATE_EXITED" H1 H2 H3).
Defined.

Lemma backend_precedence_witness :
  (args_configure (set_command (Some "mail root") with_telegram) = false
   ∧ args_telegram (set_command (Some "mail root") with_telegram) = true
   ∧ main (all_exit 0) (set_command (Some "mail root") with_telegram)
          [webapp_exited] []
     = loop (turn (all_exit 0) (set_command (Some "mail root") with_telegram)
                  (telegram (all_exit 0))
                  (build_excluded (set_command (Some "mail root") with_telegram)))
            [webapp_exited] []
   ∧ (∀ c, main (all_exit 0)
             (set_command c (set_command (Some "mail root") with_telegram))
             [webapp_exited] []
           = loop (turn (all_exit 0) (set_command (Some "mail root") with_telegram)
                        (telegram (all_exit 0))
                        (build_excluded (set_command (Some "mail root") with_telegram)))
                  [webapp_exited] [])
   ∧ select_alert (all_exit 0) (set_command (Some "mail root") with_telegram)
     = Ret (telegram (all_exit 0))
   ∧ (∀ c, main (all_exit 0)
             (set_command c (set_command (Some "mail root") with_telegram))
             [webapp_exited] []
           = main (all_exit 0) (set_command (Some "mail root") with_telegram)
               [webapp_exited] [])
   ∧ ∃ mid,
       snd (main (all_exit 0) (set_command (Some "mail root") with_telegram)
              [webapp_exited] []) = [] ++ mid
       ∧ Forall (is_relay_command (all_exit 0)) (execs mid))
  ∧ (args_configure (set_command None (with_command "" None)) = false
     ∧ args_telegram (set_command None (with_command "" None)) = false
     ∧ args_command (set_command None (with_command "" None)) = None
     ∧ main (all_exit 0) (set_command None (with_command "" None)) [webapp_exited] []
       = (Crashed (Exception "No command specified."), [])).
Proof.
  split.
  - split; [reflexivity|]. split; [reflexivity|].
    exact (proj1 (backend_precedence (all_exit 0)
                    (set_command (Some "mail root") with_telegram)
                    [webapp_exited] [] eq_refl) eq_refl).
  - split_and!; [reflexivity|reflexivity|reflexivity|].
    exact (proj2 (backend_precedence (all_exit 0)
                    (set_command None (with_command "" None))
                    [webapp_exited] [] eq_refl) eq_refl eq_refl).
Defined.

Lemma exclusion_is_exact_token_match_witness :
  args_exclude (with_command "mail root" (Some "db, Webapp,webapp "))
    = Some "db, Webapp,webapp "
  ∧ "db, Webapp,webapp " ≠ EmptyString
  ∧ decodes_to webapp_exited "webapp" "exited"
  ∧ Py.split "," "db, Webapp,webapp " = ["db"; " Webapp"; "webapp "]
  ∧ ("webapp" ∉ Py.split "," "db, Webapp,webapp ")
  ∧ ∃ r t',
      send (all_exit 0) ["mail"; "root"] "webapp has entered state exited"
           ([] ++ [Alert "webapp has entered state exited"]) = (r, t')
      ∧ turn (all_exit 0) (with_command "mail root" (Some "db, Webapp,webapp "))
             (send (all_exit 0) ["mail"; "root"])
             (build_excluded (with_command "mail root" (Some "db, Webapp,webapp ")))
             webapp_exited []
        = match r with
          | Ret true => (Ret tt, t' ++ [Out RESULT_OK])
          | Ret false => (Ret tt, t' ++ [Out RESULT_FAIL])
          | Raise e => (Raise e, t')
          end.
Proof.
  assert (H1 : args_exclude (with_command "mail root" (Some "db, Webapp,webapp "))
               = Some "db, Webapp,webapp ") by reflexivity.
  assert (H2 : "db, Webapp,webapp " ≠ EmptyString) by discriminate.
  assert (H3 : decodes_to webapp_exited "webapp" "exited").
  { eexists "PROCESS_STATE_EXITED", _.
    split_and!; [vm_compute; reflexivity|reflexivity|reflexivity
                |vm_compute; reflexivity|vm_compute; reflexivity]. }
  assert (H4 : "webapp" ∉ Py.split "," "db, Webapp,webapp ").
  { vm_compute. intros Hin. repeat (apply elem_of_cons in Hin as [[=]|Hin]).
    by apply elem_of_nil in Hin. }
  split_and!; [exact H1|exact H2|exact H3|reflexivity|exact H4|].
  exact (proj2 (proj2 (proj2 (proj2
           (exclusion_is_exact_token_match (all_exit 0)
              (with_command "mail root" (Some "db, Webapp,webapp "))
              (send (all_exit 0) ["mail"; "root"]) "db, Webapp,webapp "
              webapp_exited.1 webapp_exited.2 "webapp" "exited" [] H1 H2 H3)))) H4).
Defined.

(** ** Where the specification and the code part *)

(** C1 as stated fails: with an external command that does not exist, the
    event is received and dispatched, [OSError] leaves [send] and then
    [main], and no result signal has been written. *)
Lemma one_result_per_event_fails :
  main (home_only 0) (with_command "notify-send" None) [webapp_exited] []
    = (Crashed OSError,
       [Out READY;
        Alert "webapp has entered state exited";
        Exec ["notify-send"; "webapp has entered state exited"]])
  ∧ acks (snd (main (home_only 0) (with_command "notify-send" None)
                 [webapp_exited] [])) = [].
Proof. split; vm_compute; reflexivity. Qed.

(** C6 as stated fails: in the external-command variant a program that
    cannot be started does not give a boolean; [OSError] leaves [send]. *)
Lemma send_not_found_raises :
  send (home_only 0) ["notify-send"] "webapp has entered state exited" []
    = (Raise OSError, [Exec ["notify-send"; "webapp has entered state exited"]])
  ∧ ¬ ∃ (b : bool) t',
        send (home_only 0) ["notify-send"] "webapp has entered state exited" []
          = (Ret b, t').
Proof.
  assert (H : send (home_only 0) ["notify-send"] "webapp has entered state exited" []
    = (Raise OSError, [Exec ["notify-send"; "webapp has entered state exited"]]))
    by (vm_compute; reflexivity).
  split; [exact H|]. intros (b & t' & Hb). rewrite H in Hb. discriminate.
Qed.

(** C8 as stated fails: a state transition whose payload has no
    [processname] is not acknowledged; [KeyError] ends the run right after
    the ready signal. *)
Lemma nameless_event_not_acknowledged :
  main (all_exit 0) with_telegram [nameless_exited] []
    = (Crashed (KeyError "processname"), [Out READY])
  ∧ acks (snd (main (all_exit 0) with_telegram [nameless_exited] [])) = [].
Proof. split; vm_compute; reflexivity. Qed.

(** ** Whole runs: what the trace of a run can contain *)

Lemma count_fail_app (l1 l2 : list signal) :
  count_fail (l1 ++ l2) = (count_fail l1 + count_fail l2)%nat.
Proof. induction l1 as [|[] l1 IH]; simpl; rewrite ?IH; done. Qed.

Lemma send_dispatches (P : platform) (command : list string) :
  dispatches (send_group command) (send P command).
Proof.
  intros m t. rewrite send_run. exists [command ++ [m]].
  split; [by destruct (spawn P t _)|done].
Qed.

Lemma telegram_dispatches (P : platform) :
  dispatches (telegram_group P) (telegram P).
Proof.
  intros m t. rewrite telegram_run. cbn zeta.
  destruct (spawn P t _) as [rc|].
  - exists [primary_argv m]. split; [done|by left].
  - exists [primary_argv m; fallback_argv P m]. split; [|by right].
    destruct (spawn P _ _) as [rc|]; [case_decide|]; simpl; by rewrite <- app_assoc.
Qed.

Lemma owed_mono (P : platform) (a : args) (excluded : gset string)
    (l1 l2 : list event) (m : string) :
  l1 ⊆ l2 → owed P a excluded l1 m → owed P a excluded l2 m.
Proof.
  intros Hsub (ev & p & st & Hev & Hrest). exists ev, p, st. split; [by apply Hsub|done].
Qed.

Section Audit.
Context (P : platform) (a : args) (alert : string → M bool) (excluded : gset string).
Context (R : string → list (list string) → Prop) (Hdisp : dispatches R alert).

(** What one turn adds to the trace, in full. *)
Lemma turn_audit (ev : event) (t : trace) :
  ∃ mid groups,
    snd (turn P a alert excluded ev t) = t ++ mid
    ∧ execs mid = concat groups
    ∧ Forall2 R (alerts mid) groups
    ∧ (length (alerts mid) ≤ 1)%nat
    ∧ Forall (owed P a excluded [ev]) (alerts mid)
    ∧ (count_fail (acks mid) ≤ length (alerts mid))%nat.
Proof.
  assert (Hnone : ∀ mid : trace, execs mid = [] → alerts mid = [] →
            count_fail (acks mid) = O →
            execs mid = concat [] ∧ Forall2 R (alerts mid) []
            ∧ (length (alerts mid) ≤ 1)%nat
            ∧ Forall (owed P a excluded [ev]) (alerts mid)
            ∧ (count_fail (acks mid) ≤ length (alerts mid))%nat).
  { intros mid He Ha Hf. rewrite He, Ha, Hf.
    split_and!; [done|constructor|simpl; lia|constructor|done]. }
  destruct ev as [headers payload]. rewrite turn_run.
  destruct (headers !! "eventname") as [name|] eqn:Hname;
    [|exists [], []; split; [by rewrite app_nil_r|by apply Hnone]].
  destruct (Py.startswith name s) eqn:Hpre;
    [|exists [Out RESULT_OK], []; split; [done|by apply Hnone]].
  destruct (get_headers payload) as [data|e] eqn:Hdata;
    [|exists [], []; split; [by rewrite app_nil_r|by apply Hnone]].
  destruct (data !! "processname") as [process_name|] eqn:Hproc;
    [|exists [], []; split; [by rewrite app_nil_r|by apply Hnone]].
  case_decide as Hex; [exists [Out RESULT_OK], []; split; [done|by apply Hnone]|].
  cbn zeta. set (message := format_message _ _ _ _).
  assert (Howed : owed P a excluded [(headers, payload)] message).
  { eexists (headers, payload), process_name, _.
    split_and!; [apply list_elem_of_here| |done|done].
    exists name, data. done. }
  destruct (Hdisp message (t ++ [Alert message])) as (argvs & Hargvs & HR).
  destruct (alert message _) as [[[|]|e] t']; simpl in *; subst t'.
  - exists ([Alert message] ++ (Exec <$> argvs) ++ [Out RESULT_OK]), [argvs].
    rewrite !execs_app, !alerts_app, !acks_app, execs_execs, alerts_execs, acks_execs.
    simpl. rewrite !app_nil_r, <- !app_assoc.
    split_and!; [done|done|by repeat constructor|lia|by repeat constructor|lia].
  - exists ([Alert message] ++ (Exec <$> argvs) ++ [Out RESULT_FAIL]), [argvs].
    rewrite !execs_app, !alerts_app, !acks_app, execs_execs, alerts_execs, acks_execs.
    simpl. rewrite !app_nil_r, <- !app_assoc.
    split_and!; [done|done|by repeat constructor|lia|by repeat constructor|lia].
  - exists ([Alert message] ++ (Exec <$> argvs)), [argvs].
    rewrite !execs_app, !alerts_app, !acks_app, execs_execs, alerts_execs, acks_execs.
    simpl. rewrite !app_nil_r, <- !app_assoc.
    split_and!; [done|done|by repeat constructor|lia|by repeat constructor|lia].
Qed.

(** What a whole run of the loop adds to the trace. *)
Lemma loop_audit (stdin : list event) (t : trace) :
  ∃ mid groups,
    snd (loop (turn P a alert excluded) stdin t) = t ++ mid
    ∧ execs mid = concat groups
    ∧ Forall2 R (alerts mid) groups
    ∧ (length (alerts mid) ≤ length stdin)%nat
    ∧ Forall (owed P a excluded stdin) (alerts mid)
    ∧ (count_fail (acks mid) ≤ length (alerts mid))%nat.
Proof.
  revert t. induction stdin as [|ev stdin IH]; intros t.
  { rewrite loop_nil. exists [Out READY], []. simpl.
    split_and!; [done|done|constructor|lia|constructor|lia]. }
  rewrite loop_cons.
  destruct (turn_audit ev (t ++ [Out READY]))
    as (mid1 & g1 & Ht1 & He1 & HR1 & Hn1 & Ho1 & Hf1).
  assert (Ho1' : Forall (owed P a excluded (ev :: stdin)) (alerts mid1)).
  { eapply Forall_impl; [exact Ho1|]. intros m. apply owed_mono.
    intros x ->%list_elem_of_singleton. apply list_elem_of_here. }
  destruct (turn P a alert excluded ev (t ++ [Out READY])) as [[[]|e] t1];
    simpl in Ht1; subst t1.
  - destruct (IH ((t ++ [Out READY]) ++ mid1))
      as (mid2 & g2 & Ht2 & He2 & HR2 & Hn2 & Ho2 & Hf2).
    exists ([Out READY] ++ mid1 ++ mid2), (g1 ++ g2).
    rewrite Ht2, !execs_app, !alerts_app, !acks_app, concat_app, He1, He2.
    rewrite !count_fail_app, !length_app. simpl.
    split_and!; [by rewrite <- !app_assoc|done|by apply Forall2_app|lia| |lia].
    apply Forall_app. split; [done|].
    eapply Forall_impl; [exact Ho2|]. intros m. apply owed_mono.
    intros x Hx. by apply list_elem_of_further.
  - exists ([Out READY] ++ mid1), g1.
    rewrite !execs_app, !alerts_app, !acks_app. simpl.
    split_and!; [by rewrite <- !app_assoc|done|done|lia|done|done].
Qed.

(** The trace of a run on a longer input extends the trace of the run on
    the shorter input. *)
Lemma loop_prefix (l1 l2 : list event) (t : trace) :
  snd (loop (turn P a alert excluded) l1 t)
    `prefix_of` snd (loop (turn P a alert excluded) (l1 ++ l2) t).
Proof.
  revert t. induction l1 as [|ev l1 IH]; intros t.
  - rewrite loop_nil. simpl.
    destruct (loop_audit l2 t) as (mid & _ & Hmid & _).
    rewrite Hmid. destruct l2 as [|ev l2].
    + rewrite loop_nil in Hmid. simpl in Hmid. by rewrite <- Hmid.
    + rewrite loop_cons in Hmid.
      destruct (turn_audit ev (t ++ [Out READY])) as (mid1 & _ & Ht1 & _).
      destruct (turn P a alert excluded ev (t ++ [Out READY])) as [[[]|e] t1];
        simpl in Ht1; subst t1.
      * destruct (loop_audit l2 ((t ++ [Out READY]) ++ mid1)) as (mid2 & _ & Ht2 & _).
        rewrite Ht2 in Hmid. rewrite <- Hmid, <- !app_assoc.
        apply prefix_app, prefix_app_r. done.
      * simpl in Hmid. rewrite <- Hmid, <- app_assoc.
        apply prefix_app, prefix_app_r. done.
  - rewrite <- app_comm_cons, !loop_cons.
    destruct (turn P a alert excluded ev (t ++ [Out READY])) as [[[]|e] t1]; [apply IH|done].
Qed.

(** Once an exception has left a turn no later event is handled. *)
Lemma loop_crash_final (l1 l2 : list event) (t : trace) (e : exn) :
  fst (loop (turn P a alert excluded) l1 t) = Crashed e →
  loop (turn P a alert excluded) (l1 ++ l2) t = loop (turn P a alert excluded) l1 t.
Proof.
  revert t. induction l1 as [|ev l1 IH]; intros t.
  - by rewrite loop_nil.
  - rewrite <- app_comm_cons, !loop_cons.
    destruct (turn P a alert excluded ev (t ++ [Out READY])) as [[[]|e'] t1]; [apply IH|done].
Qed.

End Audit.


Lemma quiet_dispatches (alert : string → M bool) :
  quiet alert → dispatches (λ _ _, True) alert.
Proof.
  intros Hq m t. destruct (Hq m t) as [argvs Hargvs]. by exists argvs.
Qed.

(** X1: the listener is causal.  What a run has written and launched after
    some events is left untouched by the events that follow: the trace of
    the run on a longer input extends the trace on the shorter one. *)
Theorem run_is_causal (P : platform) (a : args) (l1 l2 : list event) (t : trace) :
  snd (main P a l1 t) `prefix_of` snd (main P a (l1 ++ l2) t).
Proof.
  unfold main. destruct (args_configure a); [done|].
  destruct (select_alert P a) as [alert|e] eqn:Hsel; [|done].
  apply (loop_prefix P a alert (build_excluded a) (λ _ _, True)).
  by apply quiet_dispatches, (select_alert_quiet P a).
Qed.

(** X2: an exception ends the run.  When the run on some events ends with
    an exception, the events that follow are never handled: the run on any
    longer input is the same run. *)
Theorem crash_ends_the_run (P : platform) (a : args) (l1 l2 : list event)
    (t : trace) (e : exn) :
  fst (main P a l1 t) = Crashed e →
  main P a (l1 ++ l2) t = main P a l1 t.
Proof.
  unfold main. destruct (args_configure a); [done|].
  destruct (select_alert P a) as [alert|e']; [|done].
  apply loop_crash_final.
Qed.



Lemma send_groups_flat (command : list string) (ms : list string)
    (groups : list (list (list string))) :
  Forall2 (send_group command) ms groups →
  concat groups = (λ m, command ++ [m]) <$> ms.
Proof.
  induction 1 as [|m g ms groups Hg _ IH]; [done|].
  unfold send_group in Hg. subst g. simpl. by rewrite IH.
Qed.

Lemma telegram_groups_size (P : platform) (ms : list string)
    (groups : list (list (list string))) :
  Forall2 (telegram_group P) ms groups →
  (length ms ≤ length (concat groups) ≤ 2 * length ms)%nat.
Proof.
  induction 1 as [|m g ms groups Hg _ IH]; [simpl; lia|].
  simpl. rewrite length_app. destruct Hg as [-> | ->]; simpl; lia.
Qed.

(** X5: outside set-up mode, with [--command] there is one subprocess per
    alert and no retry.  The subprocesses launched during a run are, in
    order, the split command line followed by the alert message as one
    further argument, for each message handed to the dispatcher. *)
Theorem command_backend_launches (P : platform) (a : args) (c : string)
    (command : list string) (stdin : list event) (t : trace) :
  args_configure a = false →
  args_telegram a = false →
  args_command a = Some c →
  shlex_split P c = Ret command →
  ∃ mid, snd (main P a stdin t) = t ++ mid
    ∧ execs mid = (λ m, command ++ [m]) <$> alerts mid.
Proof.
  intros Hconf Htg Hc Hsplit. unfold main. rewrite Hconf.
  unfold select_alert. rewrite Htg, Hc. simpl.
  destruct c as [|ch c]; simpl; [exists []; split; [by rewrite app_nil_r|done]|].
  rewrite Hsplit.
  destruct (loop_audit P a (send P command) (build_excluded a) _
              (send_dispatches P command) stdin t)
    as (mid & groups & Hmid & He & HR & _).
  exists mid. split; [done|]. rewrite He. by apply send_groups_flat.
Qed.

(** X6: outside set-up mode, with [--telegram] each alert launches the
    program on the search path first and, at most once, the copy under the
    home directory after it: the subprocesses of a run come in groups of one
    or two per alert, in the order of the alerts. *)
Theorem relay_backend_launches (P : platform) (a : args) (stdin : list event)
    (t : trace) :
  args_configure a = false →
  args_telegram a = true →
  ∃ mid groups, snd (main P a stdin t) = t ++ mid
    ∧ execs mid = concat groups
    ∧ Forall2 (telegram_group P) (alerts mid) groups
    ∧ (length (alerts mid) ≤ length (execs mid) ≤ 2 * length (alerts mid))%nat.
Proof.
  intros Hconf Htg. unfold main. rewrite Hconf.
  unfold select_alert. rewrite Htg.
  destruct (loop_audit P a (telegram P) (build_excluded a) _
              (telegram_dispatches P) stdin t)
    as (mid & groups & Hmid & He & HR & _).
  exists mid, groups. split_and!; [done|done|done|..];
    rewrite He; by apply (telegram_groups_size P).
Qed.

(** X7: an event without an [eventname] header is fatal.  The lookup raises
    [KeyError], nothing is acknowledged or dispatched, and the run ends right
    after the ready signal. *)
Theorem missing_eventname_is_fatal (P : platform) (a : args)
    (alert : string → M bool) (headers : gmap string string) (payload : string)
    (stdin : list event) (t : trace) :
  args_configure a = false →
  select_alert P a = Ret alert →
  headers !! "eventname" = None →
  main P a ((headers, payload) :: stdin) t
    = (Crashed (KeyError "eventname"), t ++ [Out READY]).
Proof.
  intros Hconf Hsel Hname. rewrite (main_run _ _ _ _ _ Hconf Hsel).
  by rewrite loop_cons, turn_run, Hname.
Qed.

(** X8: the exclusion set is empty exactly when [--exclude] is absent or is
    the empty string; any other argument excludes at least one name. *)
Theorem exclusion_empty_iff (a : args) :
  build_excluded a = ∅ ↔ Py.truthy (args_exclude a) = false.
Proof.
  split; [|apply build_excluded_none].
  unfold build_excluded. destruct (Py.truthy (args_exclude a)); [|done].
  intros Hempty. exfalso.
  pose proof (split_nonempty "," (default EmptyString (args_exclude a))) as Hne.
  destruct (Py.split "," _) as [|w ws]; [done|].
  assert (Hw : w ∈ (∅ : gset string)); [|by apply not_elem_of_empty in Hw].
  rewrite <- Hempty. apply elem_of_foldl_add. right. apply list_elem_of_here.
Qed.

Lemma crash_ends_the_run_witness :
  fst (main (all_exit 0) with_telegram [nameless_exited] [])
    = Crashed (KeyError "processname")
  ∧ main (all_exit 0) with_telegram ([nameless_exited] ++ [webapp_exited; tick]) []
    = main (all_exit 0) with_telegram [nameless_exited] [].
Proof.
  assert (H : fst (main (all_exit 0) with_telegram [nameless_exited] [])
              = Crashed (KeyError "processname")) by (vm_compute; reflexivity).
  split; [exact H|].
  exact (crash_ends_the_run (all_exit 0) with_telegram [nameless_exited]
           [webapp_exited; tick] [] (KeyError "processname") H).
Defined.

Lemma command_backend_launches_witness :
  args_configure (with_command "mail root" None) = false
  ∧ args_telegram (with_command "mail root" None) = false
  ∧ args_command (with_command "mail root" None) = Some "mail root"
  ∧ shlex_split (all_exit 1) "mail root" = Ret ["mail"; "root"]
  ∧ ∃ mid,
      snd (main (all_exit 1) (with_command "mail root" None)
             [webapp_exited; tick; worker1_running] []) = [] ++ mid
      ∧ execs mid = (λ m, ["mail"; "root"] ++ [m]) <$> alerts mid.
Proof.
  split_and!; [reflexivity|reflexivity|reflexivity|vm_compute; reflexivity|].
  apply (command_backend_launches (all_exit 1) (with_command "mail root" None)
           "mail root" ["mail"; "root"] [webapp_exited; tick; worker1_running] []);
    [reflexivity|reflexivity|reflexivity|vm_compute; reflexivity].
Defined.

Lemma relay_backend_launches_witness :
  args_configure with_telegram = false
  ∧ args_telegram with_telegram = true
  ∧ ∃ mid groups,
      snd (main (home_only 0) with_telegram [webapp_exited; worker1_running] [])
        = [] ++ mid
      ∧ execs mid = concat groups
      ∧ Forall2 (telegram_group (home_only 0)) (alerts mid) groups
      ∧ (length (alerts mid) ≤ length (execs mid) ≤ 2 * length (alerts mid))%nat.
Proof.
  split_and!; [reflexivity|reflexivity|].
  apply (relay_backend_launches (home_only 0) with_telegram
           [webapp_exited; worker1_running] []); reflexivity.
Defined.

Lemma missing_eventname_is_fatal_witness :
  args_configure with_telegram = false
  ∧ select_alert (all_exit 0) with_telegram = Ret (telegram (all_exit 0))
  ∧ ({[ "len" := "0" ]} : gmap string string) !! "eventname" = None
  ∧ main (all_exit 0) with_telegram
         (({[ "len" := "0" ]}, EmptyString) :: [webapp_exited]) []
    = (Crashed (KeyError "eventname"), [] ++ [Out READY]).
Proof.
  assert (H : ({[ "len" := "0" ]} : gmap string string) !! "eventname" = None)
    by (vm_compute; reflexivity).
  split_and!; [reflexivity|reflexivity|exact H|].
  exact (missing_eventname_is_fatal (all_exit 0) with_telegram
           (telegram (all_exit 0)) {[ "len" := "0" ]} EmptyString
           [webapp_exited] [] eq_refl eq_refl H).
Defined.

Lemma main_handshake_witness :
  args_configure (with_command "mail root" None) = false
  ∧ select_alert (all_exit 1) (with_command "mail root" None)
    = Ret (send (all_exit 1) ["mail"; "root"])
  ∧ ∃ mid,
      snd (main (all_exit 1) (with_command "mail root" None)
             [webapp_exited; tick] []) = [] ++ mid
      ∧ signals mid = handshake (acks mid)
      ∧ match fst (main (all_exit 1) (with_command "mail root" None)
                     [webapp_exited; tick] []) with
        | Blocked => length (acks mid) = length [webapp_exited; tick]
        | Crashed _ => (length (acks mid) < length [webapp_exited; tick])%nat
        | Configured _ _ => False
        end.
Proof.
  assert (H : select_alert (all_exit 1) (with_command "mail root" None)
              = Ret (send (all_exit 1) ["mail"; "root"])) by (vm_compute; reflexivity).
  split_and!; [reflexivity|exact H|].
  exact (main_handshake (all_exit 1) (with_command "mail root" None)
           (send (all_exit 1) ["mail"; "root"]) [webapp_exited; tick] [] eq_refl H).
Defined.

(** ** Set-up *)

Lemma format_config_yes : setup_format config " --show-hostname" = setup_ret (Py.join nl (saved_lines true ++ [EmptyString])).
Proof. vm_compute. reflexivity. Qed.
Lemma format_config_no : setup_format config EmptyString = setup_ret (Py.join nl (saved_lines false ++ [EmptyString])).
Proof. vm_compute. reflexivity. Qed.
Lemma adduser_words : Py.split_whitespace "adduser supervisor_alert --system --no-create-home" = adduser_argv.
Proof. vm_compute. reflexivity. Qed.
Lemma reread_words : Py.split_whitespace "supervisorctl reread" = reread_argv.
Proof. vm_compute. reflexivity. Qed.
Lemma update_words : Py.split_whitespace "supervisorctl update" = update_argv.
Proof. vm_compute. reflexivity. Qed.

(** Case analysis on the machine and on the fate of each subprocess, in the
    order in which [configure] meets them. *)
Ltac setup_step :=
  match goal with
  | |- context [typed ?K] => destruct (typed K) as [?answer|] eqn:?
  | |- context [writable ?K ?p] => destruct (writable K p) eqn:?
  | |- context [has_account ?K ?n] => destruct (has_account K n) eqn:?
  | |- context [spawn ?P ?t ?argv] => destruct (spawn P t argv) as [?rc|] eqn:?
  | |- context [decide (?rc = 0)] => destruct (decide (rc = 0)) as [->|?]
  | |- context [decide (Py.lower ?x = ?y)] => destruct (decide (Py.lower x = y))
  end.

Ltac setup_unfold :=
  unfold configure;
  rewrite ?adduser_words, ?reread_words, ?update_words;
  unfold setup_bind, setup_try, raw_input, write_file, getpwnam, print_line,
    setup_check_call, check_call, setup_raise.


Ltac setup_cases :=
  setup_unfold;
  repeat (setup_step; rewrite ?format_config_yes, ?format_config_no;
          unfold setup_ret; cbn beta iota zeta).

Ltac setup_mid :=
  eexists; split; [simpl; rewrite <- ?app_assoc; reflexivity|]; simpl.

(** X10: how set-up can fail.  The only exceptions that leave [configure]
    are [EOFError] (no answer at the prompt: nothing else was done), its own
    two [Exception]s, [OSError] and [CalledProcessError]; [IOError] and
    [KeyError] never do.  [Can't save config] means nothing was saved or
    launched; [Please retry as root] means that the last thing done was to run
    [adduser] or one of the two [supervisorctl] commands;
    [CalledProcessError] means that the last thing done was to run
    [telegram-send --configure], so that Supervisor was already updated. *)
Theorem configure_failure_modes (P : platform) (K : machine) (log : setup_log) :
  ∃ mid, snd (configure P K log) = log ++ Asked hostname_prompt :: mid ∧
    match fst (configure P K log) with
    | Done _ => True
    | Failed EOFError => mid = []
    | Failed (Raised (Exception m)) =>
        (m = cannot_save ∧ mid = [])
        ∨ (m = please_retry
           ∧ ∃ argv, last mid = Some (Ran argv)
               ∧ (argv = adduser_argv ∨ argv = reread_argv ∨ argv = update_argv))
    | Failed (Raised (CalledProcessError _)) => last mid = Some (Ran relay_configure_argv)
    | Failed (Raised OSError) => ∃ argv, last mid = Some (Ran argv)
    | Failed _ => False
    end.
Proof.
  setup_cases; setup_mid.
  all: try done.
  all: try (by left).
  all: try (right; split; [reflexivity|]; eexists; split; [reflexivity|]; eauto; fail).
  all: try (by eexists).
Qed.

(** X11: the line [Supervisor-alert has been set up successfully!] is
    printed exactly when [configure] returns; after any exception it has not
    been printed. *)
Theorem success_line_iff_done (P : platform) (K : machine) (log : setup_log) :
  ∃ mid, snd (configure P K log) = log ++ mid
    ∧ (Printed set_up_done ∈ mid ↔ ∃ u, fst (configure P K log) = Done u).
Proof.
  setup_cases; setup_mid.
  all: split; [|intros [u Hu]; first [discriminate Hu | repeat constructor]].
  all: intros Hin; repeat (apply elem_of_cons in Hin as [Hin|Hin]; [try discriminate Hin|]).
  all: try (by apply elem_of_nil in Hin).
  all: by eexists.
Qed.

(** X12: set-up launches subprocesses in one fixed order and never
    repeats one: [adduser] (only when the account [supervisor_alert] does not
    exist), [supervisorctl reread], [supervisorctl update],
    [telegram-send --configure]; what it has launched is always an initial
    part of that list. *)
Theorem setup_subprocess_order (P : platform) (K : machine) (log : setup_log) :
  ∃ mid, snd (configure P K log) = log ++ mid
    ∧ runs mid `prefix_of`
        ((if has_account K "supervisor_alert" then [] else [adduser_argv])
         ++ [reread_argv; update_argv; relay_configure_argv]).
Proof.
  setup_cases; setup_mid.
  all: try apply prefix_nil.
  all: try (eexists; reflexivity).
Qed.

Lemma split_saved_text (yes : bool) :
  Py.split "010"%char (Py.join nl (saved_lines yes ++ [EmptyString]))
    = saved_lines yes ++ [EmptyString].
Proof. destruct yes; vm_compute; reflexivity. Qed.

(** X13: when there is an answer and the file can be written, the first
    thing [configure] does after the prompt is to save the configuration at
    [conf], and it saves nothing else.  The file has the seven lines of the
    template and ends with a line feed; its [command] line carries
    [--show-hostname] exactly when the answer, without the white space around
    it and in lower case, is [y]. *)
Theorem saved_config_follows_answer (P : platform) (K : machine) (log : setup_log)
    (answer : string) :
  typed K = Some answer →
  writable K conf = true →
  ∃ text rest,
    snd (configure P K log) = log ++ Asked hostname_prompt :: Saved conf text :: rest
    ∧ Py.split "010"%char text
      = saved_lines (bool_decide (Py.lower (PyStr.strip answer) = "y")) ++ [EmptyString]
    ∧ saves rest = [].
Proof.
  intros Htyped Hwritable. setup_unfold. rewrite Htyped. cbn beta iota zeta.
  destruct (decide (Py.lower (PyStr.strip answer) = "y")) as [Hy|Hn];
    [rewrite (bool_decide_eq_true_2 _ Hy), format_config_yes
    |rewrite (bool_decide_eq_false_2 _ Hn), format_config_no];
    unfold setup_ret; cbn beta iota zeta; rewrite Hwritable; cbn beta iota zeta.
  all: repeat (setup_step; cbn beta iota zeta).
  all: eexists _, _; split; [rewrite <- ?app_assoc; reflexivity|].
  all: split; [apply split_saved_text|reflexivity].
Qed.

(** X14: when the configuration file cannot be written, [configure] raises
    [Can't save config ...] right after the prompt: no account is created,
    Supervisor is not touched, nothing is printed. *)
Theorem unwritable_config_aborts (P : platform) (K : machine) (log : setup_log)
    (answer : string) :
  typed K = Some answer →
  writable K conf = false →
  configure P K log
    = (Failed (Raised (Exception cannot_save)), log ++ [Asked hostname_prompt]).
Proof.
  intros Htyped Hwritable. setup_unfold. rewrite Htyped. cbn beta iota zeta.
  destruct (decide (Py.lower (PyStr.strip answer) = "y"));
    rewrite ?format_config_yes, ?format_config_no; unfold setup_ret;
    cbn beta iota zeta; rewrite Hwritable; reflexivity.
Qed.

(** X15: when every program exits with status 0, [configure] returns after
    doing this and only this: ask, save the file, create the account if it
    is missing, have Supervisor reread and update, announce and run
    [telegram-send --configure], print the success line. *)
Theorem setup_happy_path (P : platform) (K : machine) (log : setup_log)
    (answer : string) :
  (∀ t argv, spawn P t argv = Exited 0) →
  typed K = Some answer →
  writable K conf = true →
  ∃ text,
    configure P K log
    = (Done tt,
       log ++ [Asked hostname_prompt; Saved conf text]
           ++ (Ran <$> (if has_account K "supervisor_alert" then [] else [adduser_argv]))
           ++ [Ran reread_argv; Ran update_argv;
               Printed "Setting up telegram-send...";
               Ran relay_configure_argv;
               Printed set_up_done]).
Proof.
  intros Hall Htyped Hwritable. setup_unfold. rewrite Htyped. cbn beta iota zeta.
  destruct (decide (Py.lower (PyStr.strip answer) = "y"));
    rewrite ?format_config_yes, ?format_config_no; unfold setup_ret;
    cbn beta iota zeta; rewrite Hwritable; cbn beta iota zeta.
  all: destruct (has_account K "supervisor_alert"); cbn beta iota zeta.
  all: repeat (rewrite Hall; destruct (decide (0 = 0)) as [_|?]; [|done];
               cbn beta iota zeta).
  all: eexists; rewrite <- ?app_assoc; reflexivity.
Qed.

Lemma saved_config_follows_answer_witness :
  typed (desk (Some " Y ") true false) = Some " Y "
  ∧ writable (desk (Some " Y ") true false) conf = true
  ∧ ∃ text rest,
      snd (configure (all_exit 0) (desk (Some " Y ") true false) [])
        = [] ++ Asked hostname_prompt :: Saved conf text :: rest
      ∧ Py.split "010"%char text
        = saved_lines (bool_decide (Py.lower (PyStr.strip " Y ") = "y"))
            ++ [EmptyString]
      ∧ saves rest = [].
Proof.
  split_and!; [reflexivity|reflexivity|].
  exact (saved_config_follows_answer (all_exit 0) (desk (Some " Y ") true false) []
           " Y " eq_refl eq_refl).
Defined.

Lemma unwritable_config_aborts_witness :
  typed (desk (Some "n") false true) = Some "n"
  ∧ writable (desk (Some "n") false true) conf = false
  ∧ configure (all_exit 0) (desk (Some "n") false true) []
    = (Failed (Raised (Exception cannot_save)), [] ++ [Asked hostname_prompt]).
Proof.
  split_and!; [reflexivity|reflexivity|].
  exact (unwritable_config_aborts (all_exit 0) (desk (Some "n") false true) []
           "n" eq_refl eq_refl).
Defined.

Lemma setup_happy_path_witness :
  (∀ t argv, spawn (all_exit 0) t argv = Exited 0)
  ∧ typed (desk (Some "n") true false) = Some "n"
  ∧ writable (desk (Some "n") true false) conf = true
  ∧ ∃ text,
      configure (all_exit 0) (desk (Some "n") true false) []
      = (Done tt,
         [] ++ [Asked hostname_prompt; Saved conf text]
            ++ (Ran <$> (if has_account (desk (Some "n") true false) "supervisor_alert"
                         then [] else [adduser_argv]))
            ++ [Ran reread_argv; Ran update_argv;
                Printed "Setting up telegram-send...";
                Ran relay_configure_argv;
                Printed set_up_done]).
Proof.
  split_and!; [intros t argv; reflexivity|reflexivity|reflexivity|].
  exact (setup_happy_path (all_exit 0) (desk (Some "n") true false) [] "n"
           (λ t argv, eq_refl) eq_refl eq_refl).
Defined.

(** Set-up on a machine where the account exists and [supervisorctl] fails. *)
Example setup_as_user :
  configure (all_exit 1) (desk (Some "yes") true true) [] =
    (Failed (Raised (Exception please_retry)),
     [Asked hostname_prompt;
      Saved conf (Py.join nl (saved_lines false ++ [EmptyString]));
      Ran reread_argv]).
Proof. vm_compute. reflexivity. Qed.
